(** * Batch image renamer: a shallow embedding and its properties

    The repository holds two Python scripts,
    [batch-renaming/batch_rename_images.py] (the full variant, with
    [--dry-run] and [--start-number]) and [batch-renaming/simple_rename.py]
    (the minimal variant).  Both list a folder, keep the regular files whose
    lower-cased suffix is a known image extension, sort them, and rename the
    k-th one to the zero-padded number [start + k] followed by the
    lower-cased suffix.

    Modelling choices.
    - File names are [string]s (sequences of bytes); [str.lower] is
      modelled on ASCII input, [Path.suffix] is the text from the last
      dot on, when that dot is neither the first nor the last character, and
      paths compare as on POSIX (case-sensitive, [PosixPath]).  Comparing
      two paths of one folder is comparing their names, byte-wise
      lexicographically.
    - The builtin [int] belongs to the interpreter, not to the scripts:
      which strings it accepts depends on the interpreter's version and
      settings (its Unicode database, the limit on the number of digits).
      It is a parameter of the development ([py_int]); [cpython_int] is
      the one of CPython 3.11 with its default settings.
    - The file system maps a path to what lives there: nothing, something
      that is not a directory, or a folder, which is a finite map from entry
      names to entries (one level only: the scripts never descend).
      Symbolic and hard links are not modelled; [Path.resolve] is the
      identity on the paths considered.
    - The interpreter and the operating system are effects: a program is a
      function from the file system to a result (a value or a raised
      exception), the file system afterwards, and the trace of system calls
      and printed lines, in order.
    - The order in which the OS yields directory entries ([iterdir_order])
      and the renames the OS refuses for reasons outside the model, such as
      permissions ([rename_fault]), are parameters of the development.  A
      folder holds regular files and sub-directories, and the calls other
      than [rename] raise for a missing path or a non-directory only.
    - [rename_images] and [rename_images_in_folder] return [None] in Python.
      Here they return the list of per-entry outcomes, one per loop
      iteration that ran, naming the branch the iteration took; it is ghost
      data and influences nothing. *)

From Stdlib Require Import ZArith Ascii String DecimalString DecimalPos DecimalN
  List Lia.
From stdpp Require Import base gmap strings list sorting.

Open Scope string_scope.
Open Scope list_scope.

(** ** Strings: [str.lower], [Path.suffix], the format [04d], path order *)

Definition lower_ascii (c : ascii) : ascii :=
  let n := N_of_ascii c in
  if ((65 <=? n) && (n <=? 90))%N then ascii_of_N (n + 32) else c.

Fixpoint lower (s : string) : string :=
  match s with
  | EmptyString => EmptyString
  | String c s' => String (lower_ascii c) (lower s')
  end.

(** [name.rfind('.')], with [None] for Python's [-1]. *)
Fixpoint rfind_dot (s : string) : option nat :=
  match s with
  | EmptyString => None
  | String c s' =>
      match rfind_dot s' with
      | Some i => Some (S i)
      | None => if Ascii.eqb c "." then Some 0%nat else None
      end
  end.

(** [PurePath.suffix]: [name[i:]] when [0 < i < len(name) - 1] for
    [i = name.rfind('.')], and the empty string otherwise. *)
Definition suffix (name : string) : string :=
  match rfind_dot name with
  | Some i =>
      if ((0 <? i) && (i <? String.length name - 1))%nat
      then String.substring i (String.length name - i) name
      else ""
  | None => ""
  end.

Definition digits (n : N) : string := NilZero.string_of_uint (N.to_uint n).

Fixpoint zeros (k : nat) : string :=
  match k with
  | O => ""
  | S k' => String "0" (zeros k')
  end.

Definition zfill (width : nat) (s : string) : string :=
  zeros (width - String.length s) +:+ s.

(** [f"{i:04d}"]: sign-aware zero padding to a total width of four. *)
Definition pad4 (i : Z) : string :=
  if (i <? 0)%Z then "-" +:+ zfill 3 (digits (Z.abs_N i))
  else zfill 4 (digits (Z.to_N i)).

(** [new_name = f"{i:04d}{file_path.suffix.lower()}"]. *)
Definition new_name (i : Z) (file_path : string) : string :=
  pad4 i +:+ lower (suffix file_path).

(** The order of [sorted] on the paths of one folder. *)
Definition path_le (a b : string) : Prop := String.leb a b = true.
Definition path_lt (a b : string) : Prop := String.ltb a b = true.

#[global] Instance path_le_dec : RelDecision path_le.
Proof. intros a b. unfold path_le. apply _. Defined.

Definition sorted (l : list string) : list string := merge_sort path_le l.

(** [enumerate(l, start)]. *)
Fixpoint enumerate {A : Type} (l : list A) (start : Z) : list (Z * A) :=
  match l with
  | [] => []
  | x :: l' => (start, x) :: enumerate l' (start + 1)
  end.

(** [l.index(x)]: the first position of [x]; [None] stands for
    [ValueError]. *)
Fixpoint py_index (x : string) (l : list string) : option nat :=
  match l with
  | [] => None
  | y :: l' => if String.eqb y x then Some 0%nat else S <$> py_index x l'
  end.

(** ** [int(s)] as CPython 3.11 computes it

    The command line reaches the script as byte strings, which the
    interpreter reads as UTF-8; a byte that is not part of a well-formed
    sequence becomes a lone surrogate, which is neither white space nor a
    digit.  [int] first maps every character from 127 on to a space when it
    is Unicode white space and to its ASCII digit when it is a Unicode
    decimal digit (database 14.0), rejecting the others; it then skips ASCII
    white space on both sides, reads one sign and decimal digits that single
    underscores may separate, and rejects more than 4300 digits
    ([sys.int_max_str_digits]).  [None] stands for [ValueError]. *)

















(** ** The file system *)

Inductive entry : Type :=
| EFile (data : nat)   (* a regular file, with a tag standing for its content *)
| EDir.                (* a sub-directory *)

Inductive node : Type :=
| NotDir                               (* the path exists, not a directory *)
| Folder (d : gmap string entry).      (* a directory and its entries *)

Abbreviation dirmap := (gmap string entry).
Abbreviation filesystem := (gmap string node).

#[global] Instance entry_eq_dec : EqDecision entry.
Proof. solve_decision. Defined.

#[global] Instance node_eq_dec : EqDecision node.
Proof. solve_decision. Defined.

Definition is_file_entry (o : option entry) : bool :=
  match o with
  | Some (EFile _) => true
  | _ => false
  end.

Definition folder_at (fs : filesystem) (p : string) : option dirmap :=
  match fs !! p with
  | Some (Folder d) => Some d
  | _ => None
  end.

(** ** Exceptions, system calls, printed lines *)

Inductive exn : Type :=
| FileNotFoundError      (* a subclass of OSError *)
| NotADirectoryError     (* a subclass of OSError *)
| OSError                (* any other OSError *)
| ValueError
| SystemExit (code : Z). (* raised by sys.exit(code) *)

Inductive syscall : Type :=
| SysResolve (p : string)            (* Path(p).resolve() *)
| SysExists (p : string)             (* folder.exists() *)
| SysIsDir (p : string)              (* folder.is_dir() *)
| SysIterdir (p : string)            (* folder.iterdir() *)
| SysIsFile (p name : string)        (* (folder / name).is_file() *)
| SysExistsIn (p name : string)      (* (folder / name).exists() *)
| SysRename (p src dst : string).    (* (folder / src).rename(folder / dst) *)

Inductive msg : Type :=
| MsgUsage                                   (* usage text *)
| MsgStartNumberRequiresNumber               (* "Error: --start-number requires a number" *)
| MsgInvalidStartNumber                      (* "Error: Invalid start number" *)
| MsgBanner (folder : string) (start : Z)    (* the five banner lines of main *)
| MsgError (e : exn) (folder : string)       (* "Error: {e}" *)
| MsgFolderMissing (folder : string)         (* "Error: Folder '...' does not exist!" *)
| MsgNoImages (folder : string)              (* "No image files found in ..." *)
| MsgFound (n : nat)                         (* "Found {n} image files ..." *)
| MsgDryRunHeader                            (* "Dry run - showing what would be renamed:" *)
| MsgRenamingHeader                          (* "Renaming files:" / "Renaming files..." *)
| MsgSkipping (name : string)                (* "  Skipping {name} (already correctly named)" *)
| MsgTargetExists (target name : string)     (* "  Warning: Target file {target} already exists, skipping {name}" *)
| MsgArrow (name target : string)            (* "  {name} -> {target}" *)
| MsgErrorRenaming (name : string)           (* "  Error renaming {name}: {e}" *)
| MsgRenamedTotal (n : nat)                  (* "Successfully renamed {n} files" *)
| MsgWouldRenameTotal (n : nat)              (* "Would rename {n} files" *)
| MsgDone.                                   (* "Done!" *)

Inductive event : Type :=
| Call (c : syscall)
| Print (m : msg).

(** Ghost classification of one loop iteration. *)
Inductive outcome : Type :=
| AlreadyNamed (name : string)
| Collision (name target : string)
| WouldRename (name target : string)
| Renamed (name target : string)
| Failed (name target : string).

Definition o_source (o : outcome) : string :=
  match o with
  | AlreadyNamed n => n
  | Collision n _ | WouldRename n _ | Renamed n _ | Failed n _ => n
  end.

Definition o_target (o : outcome) : string :=
  match o with
  | AlreadyNamed n => n
  | Collision _ t | WouldRename _ t | Renamed _ t | Failed _ t => t
  end.

Definition is_already_named (o : outcome) : bool :=
  match o with AlreadyNamed _ => true | _ => false end.
Definition is_renamed (o : outcome) : bool :=
  match o with Renamed _ _ => true | _ => false end.

Definition is_rename_call (e : event) : bool :=
  match e with Call (SysRename _ _ _) => true | _ => false end.
Definition printed (tr : list event) : list msg :=
  omap (fun e => match e with Print m => Some m | _ => None end) tr.

(** ** The monad: file-system state, exceptions, a trace *)

Record ran (A : Type) : Type := Ran {
  result : exn + A;
  final : filesystem;
  trace : list event
}.
Arguments Ran {A} _ _ _.
Arguments result {A} _.
Arguments final {A} _.
Arguments trace {A} _.

Definition M (A : Type) : Type := filesystem -> ran A.

Definition ret {A} (a : A) : M A := fun fs => Ran (inr a) fs [].

Definition raise {A} (e : exn) : M A := fun fs => Ran (inl e) fs [].

(** [with_prefix tr r]: the run [r], after the events [tr]. *)
Definition with_prefix {A} (tr : list event) (r : ran A) : ran A :=
  match r with
  | Ran res fs tr' => Ran res fs (tr ++ tr')
  end.

Definition bind {A B} (m : M A) (k : A -> M B) : M B := fun fs =>
  match m fs with
  | Ran (inl e) fs1 tr1 => Ran (inl e) fs1 tr1
  | Ran (inr a) fs1 tr1 => with_prefix tr1 (k a fs1)
  end.

(** [try: m except <handles>: h]. *)
Definition try_except {A} (m : M A) (handles : exn -> bool) (h : exn -> M A) : M A :=
  fun fs =>
    match m fs with
    | Ran (inl e) fs1 tr1 =>
        if handles e then with_prefix tr1 (h e fs1) else Ran (inl e) fs1 tr1
    | Ran (inr a) fs1 tr1 => Ran (inr a) fs1 tr1
    end.

Notation "'do' x <- m ; k" := (bind m (fun x => k))
  (at level 10, x name, m at level 100, k at level 200).
Notation "'do' ' p <- m ; k" := (bind m (fun x => let 'p := x in k))
  (at level 10, p pattern, m at level 100, k at level 200).
Notation "m >> k" := (bind m (fun _ => k))
  (at level 90, right associativity).

Definition print (m : msg) : M unit := fun fs => Ran (inr tt) fs [Print m].


(** [for x in l: if test(x): acc.append(x)]. *)
Fixpoint filter_m {A} (test : A -> M bool) (l : list A) : M (list A) :=
  match l with
  | [] => ret []
  | x :: l' =>
      do b <- test x;
      do rest <- filter_m test l';
      ret (if b then x :: rest else rest)
  end.

(** A concrete operating system for examples: entries are yielded in the
    order of the map's own enumeration, reversed or not, and no rename is
    refused for an outside reason, or those of one source name are. *)
Definition listing_order (d : dirmap) : list string := (map_to_list d).*1.
Definition reversed_order (d : dirmap) : list string := reverse (listing_order d).
Definition no_fault (src dst : string) : bool := false.
Definition fault_on (name : string) (src dst : string) : bool := String.eqb src name.

Definition dir_of (l : list (string * entry)) : dirmap := list_to_map l.
Definition fs_of (p : string) (l : list (string * entry)) : filesystem :=
  {[ p := Folder (dir_of l) ]}.

(** Folders used in the examples, and the file system holding one of them
    at [/photos]. *)
Definition example_mixed : dirmap :=
  dir_of [("c.PNG", EFile 1); ("a.jpg", EFile 2); ("b.Jpeg", EFile 3)].
Definition example_clash : dirmap :=
  dir_of [("0.jpg", EFile 1); ("0001.jpg", EFile 2)].
Definition example_two : dirmap :=
  dir_of [("b.PNG", EFile 1); ("a.jpg", EFile 2)].
Definition example_two_renamed : dirmap :=
  dir_of [("0001.jpg", EFile 2); ("0002.png", EFile 1)].
Definition example_five : dirmap :=
  dir_of [("a.jpg", EFile 1); ("b.jpg", EFile 2); ("c.jpg", EFile 3);
          ("d.jpg", EFile 4); ("e.jpg", EFile 5)].
Definition example_upper : dirmap := dir_of [("0001.JPG", EFile 7)].
Definition example_lower : dirmap := dir_of [("0001.jpg", EFile 7)].
Definition at_photos (d : dirmap) : filesystem := {[ "/photos" := Folder d ]}.

(** The entries of the folder at [p], as a list. *)
Definition entries_at (fs : filesystem) (p : string) : option (list (string * entry)) :=
  map_to_list <$> folder_at fs p.

(** The planned pairs of a source and a target name behind a result. *)
Definition planned_of_result (r : exn + list outcome) : list (string * string) :=
  match r with
  | inr os => map (fun o => (o_source o, o_target o)) os
  | inl _ => []
  end.

(** ** The operating system and the two scripts *)

Section Renamer.

(** The order in which the OS yields the entries of a directory. *)
Variable iterdir_order : dirmap -> list string.

(** The renames the OS refuses for a reason outside the model
    (permissions, device errors, over-long paths). *)
Variable rename_fault : string -> string -> bool.

(** [rename(2)] inside one directory; [None] stands for an [OSError].  A
    regular file replaces an existing regular file; the other clashes are
    errors. *)
Definition os_rename (d : dirmap) (src dst : string) : option dirmap :=
  if rename_fault src dst then None
  else
    match d !! src with
    | None => None
    | Some e =>
        match e, d !! dst with
        | _, None => Some (<[dst := e]> (delete src d))
        | EFile _, Some (EFile _) => Some (<[dst := e]> (delete src d))
        | _, Some _ => None
        end
    end.

Definition sys_resolve (p : string) : M string := fun fs =>
  Ran (inr p) fs [Call (SysResolve p)].

Definition sys_exists (p : string) : M bool := fun fs =>
  Ran (inr (bool_decide (is_Some (fs !! p)))) fs [Call (SysExists p)].

Definition sys_is_dir (p : string) : M bool := fun fs =>
  Ran (inr (bool_decide (is_Some (folder_at fs p)))) fs [Call (SysIsDir p)].

Definition sys_iterdir (p : string) : M (list string) := fun fs =>
  Ran (match fs !! p with
       | None => inl FileNotFoundError
       | Some NotDir => inl NotADirectoryError
       | Some (Folder d) => inr (iterdir_order d)
       end) fs [Call (SysIterdir p)].

Definition sys_is_file (p name : string) : M bool := fun fs =>
  Ran (inr (match folder_at fs p with
            | Some d => is_file_entry (d !! name)
            | None => false
            end)) fs [Call (SysIsFile p name)].

Definition sys_exists_in (p name : string) : M bool := fun fs =>
  Ran (inr (match folder_at fs p with
            | Some d => bool_decide (is_Some (d !! name))
            | None => false
            end)) fs [Call (SysExistsIn p name)].

Definition sys_rename (p src dst : string) : M unit := fun fs =>
  match folder_at fs p with
  | Some d =>
      match os_rename d src dst with
      | Some d' => Ran (inr tt) (<[p := Folder d']> fs) [Call (SysRename p src dst)]
      | None => Ran (inl OSError) fs [Call (SysRename p src dst)]
      end
  | None => Ran (inl OSError) fs [Call (SysRename p src dst)]
  end.

(** *** batch_rename_images.py *)

Definition IMAGE_EXTENSIONS : list string :=
  [".jpg"; ".jpeg"; ".png"; ".gif"; ".bmp"; ".tiff"; ".tif";
   ".webp"; ".svg"; ".ico"; ".raw"; ".cr2"; ".nef"; ".arw"].

Definition has_extension (exts : list string) (name : string) : bool :=
  bool_decide (lower (suffix name) ∈ exts).

Definition get_image_files (folder_path : string) : M (list string) :=
  do ex <- sys_exists folder_path;
  if negb ex then raise FileNotFoundError
  else
    do isd <- sys_is_dir folder_path;
    if negb isd then raise NotADirectoryError
    else
      do names <- sys_iterdir folder_path;
      do image_files <-
        filter_m (fun file_path =>
                    do isf <- sys_is_file folder_path file_path;
                    ret (isf && has_extension IMAGE_EXTENSIONS file_path))
                 names;
      ret (sorted image_files).

(** The body of the [for] loop of [rename_images], lines 72 to 95.  It
    takes the current [renamed_count] and returns the new one, with the
    outcome of the iteration. *)
Definition rename_body (folder : string) (dry_run : bool)
    (it : Z * string) (renamed_count : nat) : M (outcome * nat) :=
  let '(i, file_path) := it in
  let new_name := new_name i file_path in
  if String.eqb file_path new_name then
    print (MsgSkipping file_path) >>
    ret (AlreadyNamed file_path, renamed_count)
  else
    do ex <- sys_exists_in folder new_name;
    if ex && negb (String.eqb new_name file_path) then
      print (MsgTargetExists new_name file_path) >>
      ret (Collision file_path new_name, renamed_count)
    else if dry_run then
      print (MsgArrow file_path new_name) >>
      ret (WouldRename file_path new_name, renamed_count)
    else
      try_except
        (sys_rename folder file_path new_name >>
         print (MsgArrow file_path new_name) >>
         ret (Renamed file_path new_name, S renamed_count))
        (fun e => match e with
                  | OSError | FileNotFoundError | NotADirectoryError => true
                  | _ => false
                  end)
        (fun _ =>
           print (MsgErrorRenaming file_path) >>
           ret (Failed file_path new_name, renamed_count)).

Fixpoint rename_loop (folder : string) (dry_run : bool)
    (its : list (Z * string)) (renamed_count : nat) : M (list outcome * nat) :=
  match its with
  | [] => ret ([], renamed_count)
  | it :: rest =>
      do ' (o, c) <- rename_body folder dry_run it renamed_count;
      do ' (os, c') <- rename_loop folder dry_run rest c;
      ret (o :: os, c')
  end.

(** The count of line 100:
    [len([f for f in image_files
          if f.name != f'{image_files.index(f)+start_number:04d}{f.suffix.lower()}'])]. *)
Fixpoint count_not_named (image_files : list string) (start_number : Z)
    (l : list string) : option nat :=
  match l with
  | [] => Some 0%nat
  | f :: l' =>
      k ← py_index f image_files;
      n ← count_not_named image_files start_number l';
      Some (if String.eqb f (new_name (Z.of_nat k + start_number) f)
            then n else S n)
  end.

Definition rename_images (folder_path : string) (start_number : Z)
    (dry_run : bool) : M (list outcome) :=
  do folder <- sys_resolve folder_path;
  do found <-
    try_except
      (do l <- get_image_files folder; ret (Some l))
      (fun e => match e with
                | FileNotFoundError | NotADirectoryError => true
                | _ => false
                end)
      (fun e => print (MsgError e folder) >> ret None);
  match found with
  | None => ret []
  | Some image_files =>
      if bool_decide (image_files = []) then
        print (MsgNoImages folder) >> ret []
      else
        print (MsgFound (length image_files)) >>
        print (if dry_run then MsgDryRunHeader else MsgRenamingHeader) >>
        do ' (os, renamed_count) <-
          rename_loop folder dry_run (enumerate image_files start_number) 0;
        (if negb dry_run then print (MsgRenamedTotal renamed_count)
         else
           match count_not_named image_files start_number image_files with
           | Some n => print (MsgWouldRenameTotal n)
           | None => raise ValueError
           end) >>
        ret os
  end.

Section CommandLine.

(** The interpreter's [int] on a command-line argument; [None] stands for
    [ValueError], the one exception [int] raises on a string. *)
Variable py_int : string -> option Z.


End CommandLine.

(** *** simple_rename.py *)

Definition image_extensions : list string :=
  [".jpg"; ".jpeg"; ".png"; ".gif"; ".bmp"; ".tiff"; ".webp"].

(** The body of the [for] loop of [rename_images_in_folder], lines 44 to
    58; [except Exception] handles every exception a rename raises. *)
Definition simple_body (folder : string) (it : Z * string) : M outcome :=
  let '(i, file_path) := it in
  let new_name := new_name i file_path in
  if String.eqb file_path new_name then
    ret (AlreadyNamed file_path)
  else
    try_except
      (sys_rename folder file_path new_name >>
       print (MsgArrow file_path new_name) >>
       ret (Renamed file_path new_name))
      (fun e => match e with SystemExit _ => false | _ => true end)
      (fun _ =>
         print (MsgErrorRenaming file_path) >>
         ret (Failed file_path new_name)).

Fixpoint simple_loop (folder : string) (its : list (Z * string)) : M (list outcome) :=
  match its with
  | [] => ret []
  | it :: rest =>
      do o <- simple_body folder it;
      do os <- simple_loop folder rest;
      ret (o :: os)
  end.

Definition rename_images_in_folder (folder_path : string) : M (list outcome) :=
  do ex <- sys_exists folder_path;
  if negb ex then
    print (MsgFolderMissing folder_path) >> ret []
  else
    do names <- sys_iterdir folder_path;
    do image_files <-
      filter_m (fun file =>
                  do isf <- sys_is_file folder_path file;
                  ret (isf && has_extension image_extensions file))
               names;
    let image_files := sorted image_files in
    if bool_decide (image_files = []) then
      print (MsgNoImages folder_path) >> ret []
    else
      print (MsgFound (length image_files)) >>
      print MsgRenamingHeader >>
      do os <- simple_loop folder_path (enumerate image_files 1);
      print MsgDone >>
      ret os.

(** [if __name__ == "__main__"] of simple_rename.py. *)
Definition simple_main (argv : list string) : M unit :=
  if negb (length argv =? 2)%nat then
    print MsgUsage >> raise (SystemExit 1)
  else
    rename_images_in_folder (nth 1 argv "") >> ret tt.



(** *** Notions used in the statements *)

(** An entry the scripts keep: a regular file with a recognised extension. *)
Definition eligible (exts : list string) (d : dirmap) (name : string) : bool :=
  is_file_entry (d !! name) && has_extension exts name.

(** The value both scripts compute for [image_files] on a folder [d]. *)
Definition image_list (exts : list string) (d : dirmap) : list string :=
  sorted (List.filter (eligible exts d) (iterdir_order d)).

(** The pairs of a source name and its target name the loop is run on. *)
Definition plan_of (its : list (Z * string)) : list (string * string) :=
  map (fun it => (it.2, new_name it.1 it.2)) its.

Definition planned (os : list outcome) : list (string * string) :=
  map (fun o => (o_source o, o_target o)) os.

Definition count_renamed (os : list outcome) : nat :=
  length (List.filter is_renamed os).

(** What [rename_images] does after its loop: the summary line. *)
Definition full_summary (dry_run : bool) (image_files : list string)
    (start_number : Z) (r : ran (list outcome * nat)) : ran (list outcome) :=
  match r with
  | Ran (inl e) fs' tr => Ran (inl e) fs' tr
  | Ran (inr (os, c)) fs' tr =>
      if negb dry_run then Ran (inr os) fs' (tr ++ [Print (MsgRenamedTotal c)])
      else
        match count_not_named image_files start_number image_files with
        | Some n => Ran (inr os) fs' (tr ++ [Print (MsgWouldRenameTotal n)])
        | None => Ran (inl ValueError) fs' tr
        end
  end.

(** What [rename_images_in_folder] does after its loop. *)
Definition simple_summary (r : ran (list outcome)) : ran (list outcome) :=
  match r with
  | Ran (inl e) fs' tr => Ran (inl e) fs' tr
  | Ran (inr os) fs' tr => Ran (inr os) fs' (tr ++ [Print MsgDone])
  end.

(** The OS yields every entry of a directory once. *)
Hypothesis iterdir_complete : forall d : dirmap,
  NoDup (iterdir_order d) /\ forall n, n ∈ iterdir_order d <-> is_Some (d !! n).

(** A recognised extension is a dot followed by a non-empty dot-free part,
    in lower case. *)
Definition well_formed_ext (e : string) : Prop :=
  (exists e', e = String "." e' /\ e' <> "" /\ rfind_dot e' = None)
  /\ lower e = e.

(** [all_below f n]: [f] holds of 0, ..., [n - 1]. *)
Fixpoint all_below (f : Z -> bool) (n : nat) : bool :=
  match n with
  | O => true
  | S n' => f (Z.of_nat n') && all_below f n'
  end.

(** The padded number [a] has four characters and comes before the next
    one in the order of paths. *)
Definition pad4_step_ok (a : Z) : bool :=
  (String.length (pad4 a) =? 4)%nat && String.ltb (pad4 a) (pad4 (a + 1)).

(** [applies_cleanly d its d']: going through [its] in order, every entry
    is already named or is moved to a name that is free at that moment, and
    the folder [d] becomes [d']. *)
Inductive applies_cleanly : dirmap -> list (Z * string) -> dirmap -> Prop :=
| clean_nil d :
    applies_cleanly d [] d
| clean_named d i f rest d' :
    f = new_name i f ->
    applies_cleanly d rest d' ->
    applies_cleanly d ((i, f) :: rest) d'
| clean_moved d i f e rest d' :
    f <> new_name i f ->
    d !! f = Some e ->
    d !! new_name i f = None ->
    applies_cleanly (<[new_name i f := e]> (delete f d)) rest d' ->
    applies_cleanly d ((i, f) :: rest) d'.

Definition settled (o : outcome) : Prop :=
  is_already_named o = true \/ is_renamed o = true.

(** [decode s]: the number a string of decimal digits stands for, leading
    zeros allowed; [None] when a character is not a digit. *)
Definition decode (s : string) : option N :=
  N.of_uint <$> NilEmpty.uint_of_string s.

(** The name under which an entry is found after its iteration: its target
    when it was renamed, its own name otherwise. *)
Definition name_after (o : outcome) : string :=
  match o with
  | Renamed _ t => t
  | _ => o_source o
  end.

(** More folders for the examples: one with a sub-directory that bears a
    target name, one without any image file. *)
Definition example_subdir : dirmap :=
  dir_of [("a.jpg", EFile 1); ("0001.jpg", EDir); ("notes.txt", EFile 2)].
Definition example_none : dirmap :=
  dir_of [("notes.txt", EFile 1); ("sub", EDir)].

(** ** The order on paths *)

Lemma ascii_compare_refl (a : ascii) : Ascii.compare a a = Eq.
Proof. unfold Ascii.compare. apply N.compare_refl. Qed.

Lemma string_compare_refl (s : string) : String.compare s s = Eq.
Proof.
  induction s as [|a s IH]; simpl; [reflexivity|].
  rewrite ascii_compare_refl. exact IH.
Qed.

Lemma string_compare_not_gt_trans (s1 s2 s3 : string) :
  String.compare s1 s2 <> Gt -> String.compare s2 s3 <> Gt ->
  String.compare s1 s3 <> Gt.
Proof.
  revert s2 s3.
  induction s1 as [|a s1 IH]; intros [|b s2] [|c s3]; simpl; try congruence.
  unfold Ascii.compare.
  destruct (N.compare_spec (N_of_ascii a) (N_of_ascii b)) as [Hab|Hab|Hab];
    destruct (N.compare_spec (N_of_ascii b) (N_of_ascii c)) as [Hbc|Hbc|Hbc];
    try congruence; intros H1 H2.
  - rewrite Hab, Hbc, N.compare_refl. eauto.
  - rewrite Hab. apply N.compare_lt_iff in Hbc. rewrite Hbc. congruence.
  - rewrite <- Hbc. apply N.compare_lt_iff in Hab. rewrite Hab. congruence.
  - assert (Hac : (N_of_ascii a < N_of_ascii c)%N) by lia.
    apply N.compare_lt_iff in Hac. rewrite Hac. congruence.
Qed.

#[global] Instance path_le_refl : Reflexive path_le.
Proof. intros s. unfold path_le, String.leb. by rewrite string_compare_refl. Qed.

#[global] Instance path_le_trans : Transitive path_le.
Proof.
  intros s1 s2 s3. unfold path_le, String.leb. intros H1 H2.
  pose proof (string_compare_not_gt_trans s1 s2 s3) as H.
  destruct (String.compare s1 s2), (String.compare s2 s3),
    (String.compare s1 s3); try congruence; exfalso; apply H; congruence.
Qed.

#[global] Instance path_le_total : Total path_le.
Proof. intros s1 s2. apply String.leb_total. Qed.

#[global] Instance path_le_antisym : AntiSymm (=) path_le.
Proof. intros s1 s2. apply String.leb_antisym. Qed.

Lemma path_lt_le_ne (a b : string) : path_lt a b <-> path_le a b /\ a <> b.
Proof.
  unfold path_lt, path_le, String.ltb, String.leb. split.
  - intros H. split.
    + destruct (String.compare a b); congruence.
    + intros ->. rewrite string_compare_refl in H. congruence.
  - intros [H Hne]. destruct (String.compare a b) eqn:E; try congruence.
    apply String.compare_eq_iff in E. congruence.
Qed.

Lemma sorted_permutation (l : list string) : sorted l ≡ₚ l.
Proof. apply merge_sort_Permutation. Qed.

Lemma sorted_Sorted (l : list string) : Sorted path_le (sorted l).
Proof. apply (Sorted_merge_sort path_le). Qed.

Lemma sorted_elem_of (l : list string) (x : string) : x ∈ sorted l <-> x ∈ l.
Proof. by rewrite sorted_permutation. Qed.

Lemma sorted_length (l : list string) : length (sorted l) = length l.
Proof. by rewrite sorted_permutation. Qed.

(** [sorted] depends on the elements only, not on their order. *)
Lemma sorted_order_independent (l1 l2 : list string) :
  l1 ≡ₚ l2 -> sorted l1 = sorted l2.
Proof.
  intros H. apply (Sorted_unique path_le); try apply sorted_Sorted.
  by rewrite !sorted_permutation.
Qed.

(** A sorted list is left as it is. *)
Lemma sorted_of_Sorted (l : list string) : Sorted path_le l -> sorted l = l.
Proof.
  intros H. apply (Sorted_unique path_le); [apply sorted_Sorted|done|].
  apply sorted_permutation.
Qed.

Lemma StronglySorted_lt_of_le_NoDup (l : list string) :
  StronglySorted path_le l -> NoDup l -> StronglySorted path_lt l.
Proof.
  induction 1 as [|x l Hs IH Hx]; intros Hnd; [constructor|].
  apply NoDup_cons in Hnd as [Hx' Hnd].
  constructor; [by apply IH|].
  apply Forall_forall. intros y Hy. apply path_lt_le_ne. split.
  - rewrite Forall_forall in Hx. by apply Hx.
  - intros ->. done.
Qed.

Lemma StronglySorted_lt_le (l : list string) :
  StronglySorted path_lt l -> StronglySorted path_le l.
Proof.
  induction 1 as [|x l Hs IH Hx]; constructor; [done|].
  eapply Forall_impl; [exact Hx|]. intros y Hy. by apply path_lt_le_ne in Hy as [? _].
Qed.

Lemma StronglySorted_lt_NoDup (l : list string) :
  StronglySorted path_lt l -> NoDup l.
Proof.
  induction 1 as [|x l Hs IH Hx]; constructor; [|done].
  intros Hin. rewrite Forall_forall in Hx. apply Hx in Hin.
  apply path_lt_le_ne in Hin as [_ Hne]. done.
Qed.

(** ** Running the monad *)

Lemma bind_inr {A B} (m : M A) (k : A -> M B) fs a fs1 tr1 :
  m fs = Ran (inr a) fs1 tr1 -> bind m k fs = with_prefix tr1 (k a fs1).
Proof. intros H. unfold bind. by rewrite H. Qed.

Lemma bind_inl {A B} (m : M A) (k : A -> M B) fs e fs1 tr1 :
  m fs = Ran (inl e) fs1 tr1 -> bind m k fs = Ran (inl e) fs1 tr1.
Proof. intros H. unfold bind. by rewrite H. Qed.


Lemma with_prefix_app {A} (tr1 tr2 : list event) (r : ran A) :
  with_prefix tr1 (with_prefix tr2 r) = with_prefix (tr1 ++ tr2) r.
Proof. destruct r. cbn. by rewrite app_assoc. Qed.

Lemma result_with_prefix {A} (tr : list event) (r : ran A) :
  result (with_prefix tr r) = result r.
Proof. by destruct r. Qed.

Lemma final_with_prefix {A} (tr : list event) (r : ran A) :
  final (with_prefix tr r) = final r.
Proof. by destruct r. Qed.

Lemma trace_with_prefix {A} (tr : list event) (r : ran A) :
  trace (with_prefix tr r) = tr ++ trace r.
Proof. by destruct r. Qed.

(** ** Running the enumeration *)

Lemma folder_at_Some (fs : filesystem) (p : string) (d : dirmap) :
  folder_at fs p = Some d <-> fs !! p = Some (Folder d).
Proof.
  unfold folder_at. destruct (fs !! p) as [[|d']|]; split; congruence.
Qed.

Lemma filter_m_is_file (exts : list string) (p : string) (fs : filesystem)
    (d : dirmap) (names : list string) :
  folder_at fs p = Some d ->
  filter_m (fun file_path =>
              do isf <- sys_is_file p file_path;
              ret (isf && has_extension exts file_path)) names fs
  = Ran (inr (List.filter (eligible exts d) names)) fs
        (map (fun n => Call (SysIsFile p n)) names).
Proof.
  intros Hd. induction names as [|n names IH]; [reflexivity|].
  cbn [filter_m].
  erewrite bind_inr; cycle 1.
  { unfold bind, sys_is_file, ret. rewrite Hd. reflexivity. }
  erewrite bind_inr by exact IH.
  cbn. by rewrite app_nil_r.
Qed.

Lemma get_image_files_folder (p : string) (fs : filesystem) (d : dirmap) :
  folder_at fs p = Some d ->
  get_image_files p fs
  = Ran (inr (image_list IMAGE_EXTENSIONS d)) fs
        ([Call (SysExists p); Call (SysIsDir p); Call (SysIterdir p)]
         ++ map (fun n => Call (SysIsFile p n)) (iterdir_order d)).
Proof.
  intros Hd. pose proof Hd as Hp. apply folder_at_Some in Hp.
  unfold get_image_files.
  erewrite bind_inr by reflexivity.
  rewrite bool_decide_eq_true_2 by (rewrite Hp; eauto). cbn [negb].
  erewrite bind_inr by reflexivity.
  rewrite bool_decide_eq_true_2 by (rewrite Hd; eauto). cbn [negb].
  erewrite bind_inr by (unfold sys_iterdir; rewrite Hp; reflexivity).
  erewrite bind_inr by (by apply filter_m_is_file).
  cbn. by rewrite app_nil_r.
Qed.

Lemma get_image_files_missing (p : string) (fs : filesystem) :
  fs !! p = None ->
  get_image_files p fs = Ran (inl FileNotFoundError) fs [Call (SysExists p)].
Proof.
  intros Hp. unfold get_image_files.
  erewrite bind_inr by reflexivity.
  rewrite bool_decide_eq_false_2 by (rewrite Hp; intros [? ?]; congruence).
  reflexivity.
Qed.

Lemma get_image_files_not_dir (p : string) (fs : filesystem) :
  fs !! p = Some NotDir ->
  get_image_files p fs
  = Ran (inl NotADirectoryError) fs [Call (SysExists p); Call (SysIsDir p)].
Proof.
  intros Hp. unfold get_image_files.
  erewrite bind_inr by reflexivity.
  rewrite bool_decide_eq_true_2 by (rewrite Hp; eauto). cbn [negb].
  erewrite bind_inr by reflexivity.
  rewrite bool_decide_eq_false_2
    by (unfold folder_at; rewrite Hp; intros [? ?]; congruence).
  reflexivity.
Qed.

(** The two scripts on a path that is missing or is not a directory. *)
Lemma bad_folder_runs
    (p : string) (start_number : Z) (dry_run : bool) (fs : filesystem) :
  fs !! p = None \/ fs !! p = Some NotDir ->
  rename_images p start_number dry_run fs
  = Ran (inr []) fs
        (Call (SysResolve p) :: Call (SysExists p) ::
         (if bool_decide (is_Some (fs !! p))
          then [Call (SysIsDir p); Print (MsgError NotADirectoryError p)]
          else [Print (MsgError FileNotFoundError p)]))
  /\ rename_images_in_folder p fs
     = (if bool_decide (is_Some (fs !! p))
        then Ran (inl NotADirectoryError) fs [Call (SysExists p); Call (SysIterdir p)]
        else Ran (inr []) fs [Call (SysExists p); Print (MsgFolderMissing p)]).
Proof.
  intros [Hp|Hp].
  - rewrite bool_decide_eq_false_2 by (rewrite Hp; intros [? ?]; congruence).
    split.
    + unfold rename_images.
      erewrite bind_inr by reflexivity.
      erewrite bind_inr; cycle 1.
      { unfold try_except. erewrite bind_inl by (by apply get_image_files_missing).
        reflexivity. }
      reflexivity.
    + unfold rename_images_in_folder.
      erewrite bind_inr by reflexivity.
      rewrite bool_decide_eq_false_2 by (rewrite Hp; intros [? ?]; congruence).
      reflexivity.
  - rewrite bool_decide_eq_true_2 by (rewrite Hp; eauto).
    split.
    + unfold rename_images.
      erewrite bind_inr by reflexivity.
      erewrite bind_inr; cycle 1.
      { unfold try_except. erewrite bind_inl by (by apply get_image_files_not_dir).
        reflexivity. }
      reflexivity.
    + unfold rename_images_in_folder.
      erewrite bind_inr by reflexivity.
      rewrite bool_decide_eq_true_2 by (rewrite Hp; eauto). cbn [negb].
      erewrite bind_inl by (unfold sys_iterdir; rewrite Hp; reflexivity).
      reflexivity.
Qed.

(** C7.  When the path given does not exist, or exists and is not a
    directory, both scripts stop before the enumeration: the full variant
    prints the error and returns, the minimal variant prints its own message
    for a missing path and dies on the [NotADirectoryError] that [iterdir]
    raises for a non-directory.  In every case the file system is left as it
    was and the trace holds no [is_file], [exists] of an entry, or [rename]
    call. *)
Theorem bad_folder_stops_before_renaming
    (p : string) (start_number : Z) (dry_run : bool) (fs : filesystem) :
  fs !! p = None \/ fs !! p = Some NotDir ->
  rename_images p start_number dry_run fs
  = Ran (inr []) fs
        (Call (SysResolve p) :: Call (SysExists p) ::
         (if bool_decide (is_Some (fs !! p))
          then [Call (SysIsDir p); Print (MsgError NotADirectoryError p)]
          else [Print (MsgError FileNotFoundError p)]))
  /\ rename_images_in_folder p fs
     = (if bool_decide (is_Some (fs !! p))
        then Ran (inl NotADirectoryError) fs [Call (SysExists p); Call (SysIterdir p)]
        else Ran (inr []) fs [Call (SysExists p); Print (MsgFolderMissing p)]).
Proof. apply bad_folder_runs. Qed.

(** ** One iteration, in closed form *)

Lemma eqb_sym_false (a b : string) : String.eqb a b = false -> String.eqb b a = false.
Proof. rewrite !String.eqb_neq. congruence. Qed.

Lemma rename_body_run (folder : string) (dry_run : bool) (i : Z) (f : string)
    (c : nat) (fs : filesystem) :
  rename_body folder dry_run (i, f) c fs =
  let t := new_name i f in
  if String.eqb f t then
    Ran (inr (AlreadyNamed f, c)) fs [Print (MsgSkipping f)]
  else if match folder_at fs folder with
          | Some d => bool_decide (is_Some (d !! t))
          | None => false
          end then
    Ran (inr (Collision f t, c)) fs
        [Call (SysExistsIn folder t); Print (MsgTargetExists t f)]
  else if dry_run then
    Ran (inr (WouldRename f t, c)) fs
        [Call (SysExistsIn folder t); Print (MsgArrow f t)]
  else
    match folder_at fs folder ≫= (fun d => os_rename d f t) with
    | Some d' =>
        Ran (inr (Renamed f t, S c)) (<[folder := Folder d']> fs)
            [Call (SysExistsIn folder t); Call (SysRename folder f t);
             Print (MsgArrow f t)]
    | None =>
        Ran (inr (Failed f t, c)) fs
            [Call (SysExistsIn folder t); Call (SysRename folder f t);
             Print (MsgErrorRenaming f)]
    end.
Proof.
  cbv zeta. unfold rename_body.
  destruct (String.eqb f (new_name i f)) eqn:E; [reflexivity|].
  rewrite (eqb_sym_false _ _ E).
  unfold bind at 1, sys_exists_in at 1.
  destruct (folder_at fs folder) as [d|] eqn:Hd; cbn [mbind option_bind].
  - destruct (bool_decide (is_Some (d !! new_name i f))); [reflexivity|].
    destruct dry_run; [reflexivity|].
    cbn. unfold try_except, bind, sys_rename. rewrite Hd.
    destruct (os_rename d f (new_name i f)); reflexivity.
  - destruct dry_run; [reflexivity|].
    cbn. unfold try_except, bind, sys_rename. rewrite Hd. reflexivity.
Qed.

Lemma simple_body_run (folder : string) (i : Z) (f : string) (fs : filesystem) :
  simple_body folder (i, f) fs =
  let t := new_name i f in
  if String.eqb f t then Ran (inr (AlreadyNamed f)) fs []
  else
    match folder_at fs folder ≫= (fun d => os_rename d f t) with
    | Some d' =>
        Ran (inr (Renamed f t)) (<[folder := Folder d']> fs)
            [Call (SysRename folder f t); Print (MsgArrow f t)]
    | None =>
        Ran (inr (Failed f t)) fs
            [Call (SysRename folder f t); Print (MsgErrorRenaming f)]
    end.
Proof.
  cbv zeta. unfold simple_body.
  destruct (String.eqb f (new_name i f)) eqn:E; [reflexivity|].
  unfold try_except, bind, sys_rename.
  destruct (folder_at fs folder) as [d|] eqn:Hd; cbn [mbind option_bind];
    [|reflexivity].
  destruct (os_rename d f (new_name i f)); reflexivity.
Qed.

(** What every iteration does, whatever its branch. *)
Lemma rename_body_total (folder : string) (dry_run : bool) (i : Z) (f : string)
    (c : nat) (fs : filesystem) :
  exists o c' fs' tr,
    rename_body folder dry_run (i, f) c fs = Ran (inr (o, c')) fs' tr
    /\ c' = (if is_renamed o then S c else c)
    /\ o_source o = f /\ o_target o = new_name i f
    /\ (dry_run = true ->
        fs' = fs /\ List.filter is_rename_call tr = [] /\ is_renamed o = false).
Proof.
  rewrite rename_body_run. cbv zeta.
  destruct (String.eqb f (new_name i f)) eqn:E.
  { apply String.eqb_eq in E. eexists _, _, _, _. split; [reflexivity|].
    cbn. repeat first [split|intro]; congruence. }
  destruct (match folder_at fs folder with Some _ => _ | None => _ end).
  { eexists _, _, _, _. split; [reflexivity|]. cbn. repeat first [split|intro]; congruence. }
  destruct dry_run.
  { eexists _, _, _, _. split; [reflexivity|]. cbn. repeat first [split|intro]; congruence. }
  destruct (folder_at fs folder ≫= _);
    (eexists _, _, _, _; split; [reflexivity|]; cbn; repeat first [split|intro]; congruence).
Qed.

Lemma simple_body_total (folder : string) (i : Z) (f : string) (fs : filesystem) :
  exists o fs' tr,
    simple_body folder (i, f) fs = Ran (inr o) fs' tr
    /\ o_source o = f /\ o_target o = new_name i f.
Proof.
  rewrite simple_body_run. cbv zeta.
  destruct (String.eqb f (new_name i f)) eqn:E.
  { apply String.eqb_eq in E. eexists _, _, _. split; [reflexivity|].
    cbn. auto. }
  destruct (folder_at fs folder ≫= _);
    (eexists _, _, _; split; [reflexivity|]; cbn; auto).
Qed.

(** ** The loops *)

Lemma rename_loop_cons (folder : string) (dry_run : bool) (it : Z * string)
    (rest : list (Z * string)) (c : nat) (fs : filesystem) o c1 fs1 tr1 :
  rename_body folder dry_run it c fs = Ran (inr (o, c1)) fs1 tr1 ->
  rename_loop folder dry_run (it :: rest) c fs
  = match rename_loop folder dry_run rest c1 fs1 with
    | Ran (inr (os, c2)) fs2 tr2 => Ran (inr (o :: os, c2)) fs2 (tr1 ++ tr2)
    | Ran (inl e) fs2 tr2 => Ran (inl e) fs2 (tr1 ++ tr2)
    end.
Proof.
  intros H. cbn [rename_loop]. erewrite bind_inr by exact H.
  unfold bind.
  destruct (rename_loop folder dry_run rest c1 fs1) as [[e|[os c2]] fs2 tr2];
    cbn; [reflexivity|]. by rewrite app_nil_r.
Qed.

Lemma simple_loop_cons (folder : string) (it : Z * string)
    (rest : list (Z * string)) (fs : filesystem) o fs1 tr1 :
  simple_body folder it fs = Ran (inr o) fs1 tr1 ->
  simple_loop folder (it :: rest) fs
  = match simple_loop folder rest fs1 with
    | Ran (inr os) fs2 tr2 => Ran (inr (o :: os)) fs2 (tr1 ++ tr2)
    | Ran (inl e) fs2 tr2 => Ran (inl e) fs2 (tr1 ++ tr2)
    end.
Proof.
  intros H. cbn [simple_loop]. erewrite bind_inr by exact H.
  unfold bind.
  destruct (simple_loop folder rest fs1) as [[e|os] fs2 tr2];
    cbn; [reflexivity|]. by rewrite app_nil_r.
Qed.

(** The loop never raises; it classifies every entry, in order, against its
    planned target; [renamed_count] grows by the number of renames; a dry
    run leaves the file system alone and calls no rename. *)
Lemma rename_loop_total (folder : string) (dry_run : bool)
    (its : list (Z * string)) (c : nat) (fs : filesystem) :
  exists os fs' tr,
    rename_loop folder dry_run its c fs
    = Ran (inr (os, c + count_renamed os)%nat) fs' tr
    /\ planned os = plan_of its
    /\ (dry_run = true ->
        fs' = fs /\ List.filter is_rename_call tr = [] /\ count_renamed os = 0%nat).
Proof.
  revert c fs. induction its as [|[i f] rest IH]; intros c fs.
  { exists [], fs, []. cbn. rewrite Nat.add_0_r. auto. }
  destruct (rename_body_total folder dry_run i f c fs)
    as (o & c1 & fs1 & tr1 & Hrun & -> & Hsrc & Htgt & Hdry).
  destruct (IH (if is_renamed o then S c else c) fs1)
    as (os & fs2 & tr2 & Hrest & Hplan & Hdry').
  erewrite rename_loop_cons by exact Hrun. rewrite Hrest.
  exists (o :: os), fs2, (tr1 ++ tr2). split; [|split].
  - f_equal. f_equal. f_equal. unfold count_renamed. cbn [List.filter].
    destruct (is_renamed o); cbn [length]; lia.
  - unfold planned, plan_of in *. cbn [map fst snd].
    by rewrite Hsrc, Htgt, Hplan.
  - intros Hd. destruct (Hdry Hd) as (-> & Htr1 & Ho).
    destruct (Hdry' Hd) as (-> & Htr2 & Hos).
    split; [done|]. split.
    + by rewrite List.filter_app, Htr1, Htr2.
    + unfold count_renamed in *. cbn [List.filter]. by rewrite Ho.
Qed.

Lemma simple_loop_total (folder : string) (its : list (Z * string)) (fs : filesystem) :
  exists os fs' tr,
    simple_loop folder its fs = Ran (inr os) fs' tr
    /\ planned os = plan_of its.
Proof.
  revert fs. induction its as [|[i f] rest IH]; intros fs.
  { exists [], fs, []. cbn. auto. }
  destruct (simple_body_total folder i f fs) as (o & fs1 & tr1 & Hrun & Hsrc & Htgt).
  destruct (IH fs1) as (os & fs2 & tr2 & Hrest & Hplan).
  erewrite simple_loop_cons by exact Hrun. rewrite Hrest.
  exists (o :: os), fs2, (tr1 ++ tr2). split; [done|].
  unfold planned, plan_of in *. cbn [map fst snd].
  by rewrite Hsrc, Htgt, Hplan.
Qed.

(** Running the loop on [pre ++ post] is running it on [pre] and then on
    [post], from the state and the count [pre] left. *)
Lemma rename_loop_app (folder : string) (dry_run : bool)
    (pre post : list (Z * string)) (c : nat) (fs : filesystem) os1 c1 fs1 tr1 :
  rename_loop folder dry_run pre c fs = Ran (inr (os1, c1)) fs1 tr1 ->
  rename_loop folder dry_run (pre ++ post) c fs
  = match rename_loop folder dry_run post c1 fs1 with
    | Ran (inr (os2, c2)) fs2 tr2 => Ran (inr (os1 ++ os2, c2)) fs2 (tr1 ++ tr2)
    | Ran (inl e) fs2 tr2 => Ran (inl e) fs2 (tr1 ++ tr2)
    end.
Proof.
  revert c fs os1 c1 fs1 tr1.
  induction pre as [|[i f] pre IH]; intros c fs os1 c1 fs1 tr1 H.
  { cbn in H. injection H as <- <- <- <-. cbn [app].
    by destruct (rename_loop folder dry_run post c fs) as [[e|[os2 c2]] fs2 tr2]. }
  destruct (rename_body_total folder dry_run i f c fs)
    as (o & c0 & fs0 & tr0 & Hrun & _).
  cbn [app]. erewrite rename_loop_cons by exact Hrun.
  erewrite rename_loop_cons in H by exact Hrun.
  destruct (rename_loop folder dry_run pre _ fs0) as [[e|[os c']] fs' tr'] eqn:Hpre;
    [discriminate|].
  injection H as <- <- <- <-.
  erewrite IH by exact Hpre.
  destruct (rename_loop folder dry_run post c' fs') as [[e|[os2 c2]] fs2 tr2];
    by rewrite app_assoc.
Qed.

Lemma simple_loop_app (folder : string) (pre post : list (Z * string))
    (fs : filesystem) os1 fs1 tr1 :
  simple_loop folder pre fs = Ran (inr os1) fs1 tr1 ->
  simple_loop folder (pre ++ post) fs
  = match simple_loop folder post fs1 with
    | Ran (inr os2) fs2 tr2 => Ran (inr (os1 ++ os2)) fs2 (tr1 ++ tr2)
    | Ran (inl e) fs2 tr2 => Ran (inl e) fs2 (tr1 ++ tr2)
    end.
Proof.
  revert fs os1 fs1 tr1.
  induction pre as [|[i f] pre IH]; intros fs os1 fs1 tr1 H.
  { cbn in H. injection H as <- <- <-. cbn [app].
    by destruct (simple_loop folder post fs) as [[e|os2] fs2 tr2]. }
  destruct (simple_body_total folder i f fs) as (o & fs0 & tr0 & Hrun & _).
  cbn [app]. erewrite simple_loop_cons by exact Hrun.
  erewrite simple_loop_cons in H by exact Hrun.
  destruct (simple_loop folder pre fs0) as [[e|os] fs' tr'] eqn:Hpre;
    [discriminate|].
  injection H as <- <- <-.
  erewrite IH by exact Hpre.
  destruct (simple_loop folder post fs') as [[e|os2] fs2 tr2];
    by rewrite app_assoc.
Qed.

(** ** The two scripts on an existing folder, in closed form *)

Lemma rename_images_folder (p : string) (start_number : Z) (dry_run : bool)
    (fs : filesystem) (d : dirmap) :
  folder_at fs p = Some d ->
  rename_images p start_number dry_run fs
  = let image_files := image_list IMAGE_EXTENSIONS d in
    with_prefix
      ([Call (SysResolve p); Call (SysExists p); Call (SysIsDir p);
        Call (SysIterdir p)]
       ++ map (fun n => Call (SysIsFile p n)) (iterdir_order d))
      (if bool_decide (image_files = []) then
         Ran (inr []) fs [Print (MsgNoImages p)]
       else
         with_prefix
           [Print (MsgFound (length image_files));
            Print (if dry_run then MsgDryRunHeader else MsgRenamingHeader)]
           (full_summary dry_run image_files start_number
              (rename_loop p dry_run (enumerate image_files start_number) 0 fs))).
Proof.
  intros Hd. cbv zeta. unfold rename_images.
  erewrite bind_inr by reflexivity.
  erewrite bind_inr; cycle 1.
  { unfold try_except. erewrite bind_inr by (by apply get_image_files_folder).
    reflexivity. }
  rewrite with_prefix_app, app_nil_r. cbn [app]. f_equal.
  destruct (bool_decide (image_list IMAGE_EXTENSIONS d = [])); [reflexivity|].
  erewrite bind_inr by reflexivity.
  erewrite bind_inr by reflexivity.
  rewrite with_prefix_app. cbn [app]. f_equal.
  unfold bind.
  destruct (rename_loop p dry_run _ 0 fs) as [[e|[os c]] fs' tr]; [reflexivity|].
  unfold full_summary. destruct dry_run; cbn [negb].
  - destruct (count_not_named _ _ _); cbn; by rewrite ?app_nil_r.
  - reflexivity.
Qed.

Lemma rename_images_in_folder_folder (p : string) (fs : filesystem) (d : dirmap) :
  folder_at fs p = Some d ->
  rename_images_in_folder p fs
  = let image_files := image_list image_extensions d in
    with_prefix
      ([Call (SysExists p); Call (SysIterdir p)]
       ++ map (fun n => Call (SysIsFile p n)) (iterdir_order d))
      (if bool_decide (image_files = []) then
         Ran (inr []) fs [Print (MsgNoImages p)]
       else
         with_prefix
           [Print (MsgFound (length image_files)); Print MsgRenamingHeader]
           (simple_summary (simple_loop p (enumerate image_files 1) fs))).
Proof.
  intros Hd. pose proof Hd as Hp. apply folder_at_Some in Hp.
  cbv zeta. unfold rename_images_in_folder.
  erewrite bind_inr by reflexivity.
  rewrite bool_decide_eq_true_2 by (rewrite Hp; eauto). cbn [negb].
  erewrite bind_inr by (unfold sys_iterdir; rewrite Hp; reflexivity).
  erewrite bind_inr by (by apply filter_m_is_file).
  rewrite !with_prefix_app. cbn [app]. f_equal.
  fold (image_list image_extensions d).
  destruct (bool_decide (image_list image_extensions d = [])); [reflexivity|].
  erewrite bind_inr by reflexivity.
  erewrite bind_inr by reflexivity.
  rewrite with_prefix_app. cbn [app]. reflexivity.
Qed.

(** The count of line 100 is defined: every file is found in the list it
    comes from. *)
Lemma py_index_elem_of (x : string) (l : list string) :
  x ∈ l -> exists k, py_index x l = Some k /\ (k < length l)%nat.
Proof.
  induction l as [|y l IH]; intros Hin; [by apply elem_of_nil in Hin|].
  cbn. destruct (String.eqb y x) eqn:E.
  - exists 0%nat. split; [done|lia].
  - apply String.eqb_neq in E. apply elem_of_cons in Hin as [->|Hin]; [done|].
    destruct (IH Hin) as (k & -> & Hk). exists (S k). split; [done|lia].
Qed.

Lemma count_not_named_defined (all : list string) (start_number : Z)
    (l : list string) :
  l ⊆ all -> is_Some (count_not_named all start_number l).
Proof.
  induction l as [|f l IH]; intros Hsub; [by eexists|].
  cbn. destruct (py_index_elem_of f all) as (k & -> & _).
  { apply Hsub. left. }
  destruct IH as [n ->]. { intros x Hx. apply Hsub. by right. }
  cbn. by eexists.
Qed.

(** C4.  A dry run calls no rename and leaves the file system as it found
    it, and it enumerates and plans as the live run does: both runs return
    one outcome per planned entry, for the same source and target names in
    the same order. *)
Theorem dry_run_touches_nothing
    (p : string) (start_number : Z) (fs : filesystem) :
  let dry := rename_images p start_number true fs in
  let live := rename_images p start_number false fs in
  final dry = fs
  /\ List.filter is_rename_call (trace dry) = []
  /\ exists os_dry os_live,
       result dry = inr os_dry /\ result live = inr os_live
       /\ planned os_dry = planned os_live.
Proof.
  cbv zeta.
  destruct (folder_at fs p) as [d|] eqn:Hd.
  - rewrite !(rename_images_folder _ _ _ _ d) by done. cbv zeta.
    rewrite !final_with_prefix, !trace_with_prefix, !result_with_prefix.
    rewrite List.filter_app.
    assert (Hcalls : forall l, List.filter is_rename_call
              (map (fun n => Call (SysIsFile p n)) l) = []).
    { induction l; [done|]. by cbn. }
    cbn [app List.filter is_rename_call]. rewrite Hcalls. cbn [app].
    destruct (bool_decide (image_list IMAGE_EXTENSIONS d = [])).
    { cbn. repeat split. by exists [], []. }
    rewrite !final_with_prefix, !trace_with_prefix, !result_with_prefix.
    destruct (rename_loop_total p true
                (enumerate (image_list IMAGE_EXTENSIONS d) start_number) 0 fs)
      as (os1 & fs1 & tr1 & -> & Hplan1 & Hdry).
    destruct (rename_loop_total p false
                (enumerate (image_list IMAGE_EXTENSIONS d) start_number) 0 fs)
      as (os2 & fs2 & tr2 & -> & Hplan2 & _).
    destruct (Hdry eq_refl) as (-> & Htr & _).
    destruct (count_not_named_defined (image_list IMAGE_EXTENSIONS d)
                start_number (image_list IMAGE_EXTENSIONS d)) as [n Hn]; [done|].
    cbn. rewrite Hn. cbn. rewrite List.filter_app, Htr. cbn.
    repeat split. exists os1, os2. by rewrite Hplan1, Hplan2.
  - assert (Hp : fs !! p = None \/ fs !! p = Some NotDir).
    { unfold folder_at in Hd. destruct (fs !! p) as [[|?]|]; auto. discriminate. }
    rewrite !(proj1 (bad_folder_runs p _ _ fs Hp)).
    cbn. repeat split.
    + by destruct (bool_decide _).
    + by exists [], [].
Qed.

(** ** The command line of the full variant *)


(** ** Collisions, failures, upper-case extensions *)

Lemma printed_app (tr1 tr2 : list event) :
  printed (tr1 ++ tr2) = printed tr1 ++ printed tr2.
Proof. unfold printed. apply omap_app. Qed.

Lemma printed_is_file_calls (p : string) (l : list string) :
  printed (map (fun n => Call (SysIsFile p n)) l) = [].
Proof. induction l; [done|]. by cbn. Qed.

(** The last line a live run of the full variant prints, when there are
    image files, is the number of renamed entries. *)
Lemma live_summary_counts_renamed (p : string) (start_number : Z)
    (fs : filesystem) (d : dirmap) (os : list outcome) :
  folder_at fs p = Some d ->
  result (rename_images p start_number false fs) = inr os ->
  os <> [] ->
  last (printed (trace (rename_images p start_number false fs)))
  = Some (MsgRenamedTotal (count_renamed os)).
Proof.
  intros Hd. rewrite (rename_images_folder _ _ _ _ d) by done. cbv zeta.
  rewrite result_with_prefix, trace_with_prefix.
  destruct (bool_decide (image_list IMAGE_EXTENSIONS d = [])).
  { cbn [result]. intros [= <-] Hne. done. }
  rewrite result_with_prefix, trace_with_prefix.
  destruct (rename_loop_total p false
              (enumerate (image_list IMAGE_EXTENSIONS d) start_number) 0 fs)
    as (os' & fs1 & tr1 & -> & _).
  cbn [full_summary negb result trace]. intros [= <-] _.
  rewrite !app_assoc, printed_app. cbn [printed omap]. cbn.
  apply last_snoc.
Qed.

(** The last line a run of the minimal variant prints, when there are image
    files, is "Done!". *)
Lemma simple_summary_is_done (p : string) (fs : filesystem) (d : dirmap)
    (os : list outcome) :
  folder_at fs p = Some d ->
  result (rename_images_in_folder p fs) = inr os ->
  os <> [] ->
  last (printed (trace (rename_images_in_folder p fs))) = Some MsgDone.
Proof.
  intros Hd. rewrite (rename_images_in_folder_folder _ _ d) by done. cbv zeta.
  rewrite result_with_prefix, trace_with_prefix.
  destruct (bool_decide (image_list image_extensions d = [])).
  { cbn [result]. intros [= <-] Hne. done. }
  rewrite result_with_prefix, trace_with_prefix.
  destruct (simple_loop_total p (enumerate (image_list image_extensions d) 1) fs)
    as (os' & fs1 & tr1 & -> & _).
  cbn [simple_summary result trace]. intros _ _.
  rewrite !app_assoc, printed_app. cbn [printed omap]. cbn.
  apply last_snoc.
Qed.

(** C2, for the full variant.  When the loop reaches an entry whose target
    name differs from its own name and names an entry of the folder as it is
    at that moment, after the renames of the earlier entries, the iteration
    prints the warning, classifies the entry as a collision and changes
    nothing: the file system after the iteration is the one before it. *)
Theorem collision_is_skipped (folder : string) (dry_run : bool)
    (pre : list (Z * string)) (i : Z) (f : string) (c : nat)
    (fs : filesystem) (d : dirmap) :
  let t := new_name i f in
  let before := rename_loop folder dry_run pre c fs in
  let after := rename_loop folder dry_run (pre ++ [(i, f)]) c fs in
  folder_at (final before) folder = Some d ->
  f <> t ->
  is_Some (d !! t) ->
  final after = final before
  /\ trace after
     = trace before ++ [Call (SysExistsIn folder t); Print (MsgTargetExists t f)]
  /\ exists os c',
       result before = inr (os, c')
       /\ result after = inr (os ++ [Collision f t], c').
Proof.
  cbv zeta. intros Hd Hne Hex.
  destruct (rename_loop_total folder dry_run pre c fs)
    as (os & fs1 & tr1 & Hpre & _).
  erewrite rename_loop_app by exact Hpre. rewrite Hpre in Hd |- *.
  cbn [final trace result] in *.
  erewrite rename_loop_cons; cycle 1.
  { rewrite rename_body_run. cbv zeta.
    rewrite (proj2 (String.eqb_neq _ _)) by done.
    rewrite Hd, bool_decide_eq_true_2 by done. reflexivity. }
  cbn. repeat split. eauto.
Qed.

(** C6, amended.  When the rename of an entry raises [OSError], the
    iteration prints the error line of that entry and classifies it as
    failed, the file system is left as it was before the iteration, and the
    loop goes on with the entries after it exactly as it runs from that
    state; the loop returns a result, one outcome per entry.  No summary
    counts the failures: [renamed_count] counts the renamed entries only,
    so the failed entry is left out of it, and the last line of a live run
    of the full variant on a folder with image files is "Successfully
    renamed [n] files" for the number [n] of renamed entries; the last line
    of the minimal variant is "Done!". *)
Theorem rename_failure_is_isolated (folder : string)
    (pre post : list (Z * string)) (i : Z) (f : string) (c : nat)
    (fs : filesystem) :
  let t := new_name i f in
  (let before := rename_loop folder false pre c fs in
   f <> t ->
   result (sys_exists_in folder t (final before)) = inr false ->
   result (sys_rename folder f t (final before)) = inl OSError ->
   exists os1 c1 os2,
     result before = inr (os1, c1)
     /\ let resumed := rename_loop folder false post c1 (final before) in
        let whole := rename_loop folder false (pre ++ (i, f) :: post) c fs in
        result resumed = inr (os2, (c + count_renamed (os1 ++ os2))%nat)
        /\ length os1 = length pre /\ length os2 = length post
        /\ result whole
           = inr (os1 ++ Failed f t :: os2, (c + count_renamed (os1 ++ os2))%nat)
        /\ final whole = final resumed
        /\ trace whole
           = trace before
             ++ [Call (SysExistsIn folder t); Call (SysRename folder f t);
                 Print (MsgErrorRenaming f)]
             ++ trace resumed)
  /\ (let before := simple_loop folder pre fs in
      f <> t ->
      result (sys_rename folder f t (final before)) = inl OSError ->
      exists os1 os2,
        result before = inr os1
        /\ let resumed := simple_loop folder post (final before) in
           let whole := simple_loop folder (pre ++ (i, f) :: post) fs in
           result resumed = inr os2
           /\ length os1 = length pre /\ length os2 = length post
           /\ result whole = inr (os1 ++ Failed f t :: os2)
           /\ final whole = final resumed
           /\ trace whole
              = trace before
                ++ [Call (SysRename folder f t); Print (MsgErrorRenaming f)]
                ++ trace resumed)
  /\ (forall p start_number fs0 d os,
        folder_at fs0 p = Some d ->
        result (rename_images p start_number false fs0) = inr os ->
        os <> [] ->
        last (printed (trace (rename_images p start_number false fs0)))
        = Some (MsgRenamedTotal (count_renamed os)))
  /\ (forall p fs0 d os,
        folder_at fs0 p = Some d ->
        result (rename_images_in_folder p fs0) = inr os ->
        os <> [] ->
        last (printed (trace (rename_images_in_folder p fs0))) = Some MsgDone).
Proof.
  cbv zeta.
  split; [|split; [|split; [apply live_summary_counts_renamed
                           |apply simple_summary_is_done]]].
  - intros Hne Hex Hfail.
    destruct (rename_loop_total folder false pre c fs)
      as (os1 & fs1 & tr1 & Hpre & Hplan1 & _).
    rewrite Hpre in Hex, Hfail |- *. cbn [final trace result] in *.
    destruct (rename_loop_total folder false post (c + count_renamed os1) fs1)
      as (os2 & fs2 & tr2 & Hpost & Hplan2 & _).
    exists os1, (c + count_renamed os1)%nat, os2.
    split; [done|].
    erewrite rename_loop_app by exact Hpre.
    erewrite rename_loop_cons; cycle 1.
    { rewrite rename_body_run. cbv zeta.
      rewrite (proj2 (String.eqb_neq _ _)) by done.
      unfold sys_exists_in in Hex. cbn in Hex. injection Hex as ->.
      unfold sys_rename in Hfail.
      destruct (folder_at fs1 folder) as [d|]; cbn [mbind option_bind];
        [|reflexivity].
      destruct (os_rename d f (new_name i f)); [discriminate|reflexivity]. }
    rewrite Hpost. cbn [final trace result].
    assert (Hcount : count_renamed (os1 ++ os2)
                     = (count_renamed os1 + count_renamed os2)%nat).
    { unfold count_renamed. by rewrite List.filter_app, length_app. }
    rewrite Hcount, Nat.add_assoc.
    apply (f_equal (@length _)) in Hplan1, Hplan2.
    unfold planned, plan_of in Hplan1, Hplan2. rewrite !length_map in Hplan1, Hplan2.
    repeat split; done.
  - intros Hne Hfail.
    destruct (simple_loop_total folder pre fs) as (os1 & fs1 & tr1 & Hpre & Hplan1).
    rewrite Hpre in Hfail |- *. cbn [final trace result] in *.
    destruct (simple_loop_total folder post fs1)
      as (os2 & fs2 & tr2 & Hpost & Hplan2).
    exists os1, os2. split; [done|].
    erewrite simple_loop_app by exact Hpre.
    erewrite simple_loop_cons; cycle 1.
    { rewrite simple_body_run. cbv zeta.
      rewrite (proj2 (String.eqb_neq _ _)) by done.
      unfold sys_rename in Hfail.
      destruct (folder_at fs1 folder) as [d|]; cbn [mbind option_bind];
        [|reflexivity].
      destruct (os_rename d f (new_name i f)); [discriminate|reflexivity]. }
    rewrite Hpost. cbn [final trace result].
    apply (f_equal (@length _)) in Hplan1, Hplan2.
    unfold planned, plan_of in Hplan1, Hplan2. rewrite !length_map in Hplan1, Hplan2.
    repeat split; done.
Qed.

Lemma string_app_inj_l (s a b : string) : s +:+ a = s +:+ b -> a = b.
Proof. induction s as [|ch s IH]; cbn; [done|]. intros [= H]. auto. Qed.

(** C10, amended.  A file named by its own sequence number and a suffix
    that is not in lower case is not taken for already named: its target is
    the number followed by the lower-cased suffix, which differs from its
    name, so no iteration classifies it as already named.  It is renamed to
    the lower-cased name when the OS performs the rename and, in the full
    variant, the target name is free in the folder at that moment; when the
    target name exists, the full variant skips the file for a collision and
    changes nothing. *)
Theorem upper_case_suffix_is_normalised (folder : string) (i : Z) (ext : string)
    (c : nat) (fs : filesystem) (d d' : dirmap) :
  let name := pad4 i +:+ ext in
  let target := pad4 i +:+ lower ext in
  suffix name = ext ->
  lower ext <> ext ->
  new_name i name = target
  /\ target <> name
  /\ (forall dry_run fs0 c0 o c1 fs1 tr,
        rename_body folder dry_run (i, name) c0 fs0 = Ran (inr (o, c1)) fs1 tr ->
        is_already_named o = false)
  /\ (forall fs0 o fs1 tr,
        simple_body folder (i, name) fs0 = Ran (inr o) fs1 tr ->
        is_already_named o = false)
  /\ (folder_at fs folder = Some d ->
      (is_Some (d !! target) ->
       forall dry_run,
         rename_body folder dry_run (i, name) c fs
         = Ran (inr (Collision name target, c)) fs
               [Call (SysExistsIn folder target);
                Print (MsgTargetExists target name)])
      /\ (d !! target = None ->
          os_rename d name target = Some d' ->
          rename_body folder false (i, name) c fs
          = Ran (inr (Renamed name target, S c)) (<[folder := Folder d']> fs)
                [Call (SysExistsIn folder target);
                 Call (SysRename folder name target);
                 Print (MsgArrow name target)])
      /\ (os_rename d name target = Some d' ->
          simple_body folder (i, name) fs
          = Ran (inr (Renamed name target)) (<[folder := Folder d']> fs)
                [Call (SysRename folder name target);
                 Print (MsgArrow name target)])).
Proof.
  cbv zeta. intros Hsuf Hlow.
  assert (Hnew : new_name i (pad4 i +:+ ext) = pad4 i +:+ lower ext).
  { unfold new_name. by rewrite Hsuf. }
  assert (Hne : pad4 i +:+ ext <> pad4 i +:+ lower ext).
  { intros H. apply string_app_inj_l in H. congruence. }
  assert (Heqb : String.eqb (pad4 i +:+ ext) (pad4 i +:+ lower ext) = false).
  { by apply String.eqb_neq. }
  split; [done|]. split; [congruence|]. split; [|split].
  - intros dry_run fs0 c0 o c1 fs1 tr. rewrite rename_body_run. cbv zeta.
    rewrite Hnew, Heqb.
    destruct (match folder_at fs0 folder with Some _ => _ | None => _ end);
      [intros [= <- _ _ _]; done|].
    destruct dry_run; [intros [= <- _ _ _]; done|].
    destruct (folder_at fs0 folder ≫= _); intros [= <- _ _ _]; done.
  - intros fs0 o fs1 tr. rewrite simple_body_run. cbv zeta.
    rewrite Hnew, Heqb.
    destruct (folder_at fs0 folder ≫= _); intros [= <- _ _]; done.
  - intros Hd. split; [|split].
    + intros Hex dry_run. rewrite rename_body_run. cbv zeta.
      rewrite Hnew, Heqb, Hd. by rewrite bool_decide_eq_true_2.
    + intros Hfree Hren. rewrite rename_body_run. cbv zeta.
      rewrite Hnew, Heqb, Hd.
      rewrite bool_decide_eq_false_2 by (rewrite Hfree; intros [? ?]; congruence).
      cbn [mbind option_bind]. by rewrite Hren.
    + intros Hren. rewrite simple_body_run. cbv zeta. rewrite Hnew, Heqb, Hd.
      cbn [mbind option_bind]. by rewrite Hren.
Qed.

(** ** The enumeration is the sorted list of the eligible files *)

Lemma eligible_spec (exts : list string) (d : dirmap) (n : string) :
  eligible exts d n = true
  <-> (exists x, d !! n = Some (EFile x)) /\ lower (suffix n) ∈ exts.
Proof.
  unfold eligible, has_extension, is_file_entry.
  rewrite andb_true_iff, bool_decide_eq_true.
  destruct (d !! n) as [[x|]|]; split; try (intros [? ?]; done);
    try (intros [[? ?] ?]; done).
  intros [_ ?]. eauto.
Qed.

Lemma image_list_elem_of (exts : list string) (d : dirmap) (n : string) :
  n ∈ image_list exts d <-> eligible exts d n = true.
Proof.
  unfold image_list. rewrite sorted_elem_of, list_elem_of_In, filter_In.
  rewrite <- list_elem_of_In, (proj2 (iterdir_complete d)).
  split; [by intros [_ ?]|]. intros H. split; [|done].
  apply eligible_spec in H as [[x ->] _]. eauto.
Qed.

Lemma image_list_sorted (exts : list string) (d : dirmap) :
  StronglySorted path_lt (image_list exts d).
Proof.
  apply StronglySorted_lt_of_le_NoDup.
  - apply Sorted_StronglySorted; [apply _|]. apply sorted_Sorted.
  - unfold image_list. rewrite sorted_permutation.
    apply NoDup_ListNoDup, List.NoDup_filter, NoDup_ListNoDup, iterdir_complete.
Qed.

Lemma plan_of_enumerate (l : list string) (start : Z) :
  plan_of (enumerate l start)
  = imap (fun k f => (f, new_name (start + Z.of_nat k) f)) l.
Proof.
  revert start. induction l as [|f l IH]; intros start; [done|].
  cbn [enumerate]. unfold plan_of in *. cbn [map fst snd imap].
  rewrite Z.add_0_r. f_equal. rewrite IH. apply imap_ext.
  intros k x _. cbn. do 2 f_equal. lia.
Qed.

Lemma full_summary_result (dry_run : bool) (files : list string) (start : Z)
    (os : list outcome) (c : nat) (fs' : filesystem) (tr : list event) :
  result (full_summary dry_run files start (Ran (inr (os, c)) fs' tr)) = inr os
  /\ final (full_summary dry_run files start (Ran (inr (os, c)) fs' tr)) = fs'.
Proof.
  unfold full_summary. destruct dry_run; cbn [negb]; [|done].
  destruct (count_not_named_defined files start files) as [n ->]; done.
Qed.

(** C1.  On an existing folder, each variant works on the list of the
    eligible entries (regular files whose lower-cased suffix is a recognised
    extension) in strictly increasing name order, and the entry at position
    [k] of that list gets the target name [pad4 (start + k)] followed by its
    lower-cased suffix; the minimal variant starts at 1. *)
Theorem targets_follow_sorted_order (p : string) (start_number : Z)
    (dry_run : bool) (fs : filesystem) (d : dirmap) :
  folder_at fs p = Some d ->
  (exists files os,
     StronglySorted path_lt files
     /\ (forall n, n ∈ files
                   <-> (exists x, d !! n = Some (EFile x))
                       /\ lower (suffix n) ∈ IMAGE_EXTENSIONS)
     /\ result (rename_images p start_number dry_run fs) = inr os
     /\ planned os
        = imap (fun k f => (f, pad4 (start_number + Z.of_nat k) +:+ lower (suffix f)))
               files)
  /\ (exists files os,
        StronglySorted path_lt files
        /\ (forall n, n ∈ files
                      <-> (exists x, d !! n = Some (EFile x))
                          /\ lower (suffix n) ∈ image_extensions)
        /\ result (rename_images_in_folder p fs) = inr os
        /\ planned os
           = imap (fun k f => (f, pad4 (1 + Z.of_nat k) +:+ lower (suffix f))) files).
Proof.
  intros Hd. split.
  - exists (image_list IMAGE_EXTENSIONS d).
    rewrite (rename_images_folder _ _ _ _ d) by done. cbv zeta.
    rewrite result_with_prefix.
    destruct (bool_decide (image_list IMAGE_EXTENSIONS d = [])) eqn:E.
    + apply bool_decide_eq_true in E. exists [].
      split; [apply image_list_sorted|].
      split; [intros n; by rewrite image_list_elem_of, eligible_spec|].
      rewrite E. done.
    + destruct (rename_loop_total p dry_run
                  (enumerate (image_list IMAGE_EXTENSIONS d) start_number) 0 fs)
        as (os & fs1 & tr1 & Hrun & Hplan & _).
      exists os. split; [apply image_list_sorted|].
      split; [intros n; by rewrite image_list_elem_of, eligible_spec|].
      rewrite result_with_prefix, Hrun.
      split; [apply full_summary_result|].
      by rewrite Hplan, plan_of_enumerate.
  - exists (image_list image_extensions d).
    rewrite (rename_images_in_folder_folder _ _ d) by done. cbv zeta.
    rewrite result_with_prefix.
    destruct (bool_decide (image_list image_extensions d = [])) eqn:E.
    + apply bool_decide_eq_true in E. exists [].
      split; [apply image_list_sorted|].
      split; [intros n; by rewrite image_list_elem_of, eligible_spec|].
      rewrite E. done.
    + destruct (simple_loop_total p (enumerate (image_list image_extensions d) 1) fs)
        as (os & fs1 & tr1 & Hrun & Hplan).
      exists os. split; [apply image_list_sorted|].
      split; [intros n; by rewrite image_list_elem_of, eligible_spec|].
      rewrite result_with_prefix, Hrun.
      split; [done|].
      by rewrite Hplan, plan_of_enumerate.
Qed.

(** ** Target names: suffixes and order *)

Lemma IMAGE_EXTENSIONS_well_formed : Forall well_formed_ext IMAGE_EXTENSIONS.
Proof.
  unfold IMAGE_EXTENSIONS.
  repeat first
    [ apply Forall_nil; done
    | apply Forall_cons; split;
      [split; [eexists; split; [reflexivity|split; [discriminate|reflexivity]]
              |reflexivity]|] ].
Qed.

Lemma image_extensions_well_formed : Forall well_formed_ext image_extensions.
Proof.
  unfold image_extensions.
  repeat first
    [ apply Forall_nil; done
    | apply Forall_cons; split;
      [split; [eexists; split; [reflexivity|split; [discriminate|reflexivity]]
              |reflexivity]|] ].
Qed.

Lemma string_length_app (s1 s2 : string) :
  String.length (s1 +:+ s2) = (String.length s1 + String.length s2)%nat.
Proof. induction s1 as [|c s1 IH]; simpl; [done|]. by rewrite IH. Qed.

Lemma rfind_dot_app_ext (s e' : string) :
  rfind_dot e' = None ->
  rfind_dot (s +:+ String "." e') = Some (String.length s).
Proof.
  intros He. induction s as [|c s IH]; simpl.
  - by rewrite He.
  - by rewrite IH.
Qed.

Lemma substring_whole (e : string) :
  String.substring 0 (String.length e) e = e.
Proof. induction e as [|c e IHe]; simpl; [done|]. by rewrite IHe. Qed.

Lemma substring_app_r (s e : string) :
  String.substring (String.length s) (String.length e) (s +:+ e) = e.
Proof.
  induction s as [|c s IH]; [apply substring_whole|exact IH].
Qed.

Lemma suffix_app_ext (s e : string) :
  s <> "" -> well_formed_ext e -> suffix (s +:+ e) = e.
Proof.
  intros Hs [(e' & -> & He' & Hdot) _]. unfold suffix.
  rewrite rfind_dot_app_ext by done. rewrite string_length_app.
  assert (0 < String.length s)%nat by (destruct s; cbn; [done|lia]).
  assert (0 < String.length e')%nat by (destruct e'; cbn; [done|lia]).
  cbn [String.length].
  rewrite (proj2 (Nat.ltb_lt _ _)) by done.
  rewrite (proj2 (Nat.ltb_lt _ _)) by lia. cbn [andb].
  replace (String.length s + S (String.length e') - String.length s)%nat
    with (String.length (String "." e')) by (cbn; lia).
  apply substring_app_r.
Qed.

Lemma zeros_length (k : nat) : String.length (zeros k) = k.
Proof. induction k; cbn; congruence. Qed.

Lemma pad4_nonempty (i : Z) : pad4 i <> "".
Proof.
  unfold pad4. destruct (i <? 0)%Z; [done|].
  intros H. apply (f_equal String.length) in H.
  unfold zfill, digits in H. rewrite string_length_app, zeros_length in H.
  cbn in H.
  assert (String.length (NilZero.string_of_uint (N.to_uint (Z.to_N i))) <> 0)%nat; [|lia].
  unfold NilZero.string_of_uint.
  destruct (N.to_uint (Z.to_N i)); cbn; lia.
Qed.

(** The target of a target is the target itself. *)
Lemma new_name_fixed (exts : list string) (i : Z) (f : string) :
  Forall well_formed_ext exts ->
  lower (suffix f) ∈ exts ->
  suffix (new_name i f) = lower (suffix f)
  /\ new_name i (new_name i f) = new_name i f.
Proof.
  intros Hexts Hin. rewrite Forall_forall in Hexts.
  pose proof (Hexts _ Hin) as Hwf.
  assert (Hs : suffix (new_name i f) = lower (suffix f)).
  { unfold new_name. apply suffix_app_ext; [apply pad4_nonempty|done]. }
  split; [done|].
  unfold new_name at 1. rewrite Hs. unfold new_name.
  by rewrite (proj2 Hwf).
Qed.

(** Padded numbers from 0 to 9999 have four characters and increase with
    the number; the facts are checked on each number in turn. *)
Lemma all_below_spec (f : Z -> bool) (n : nat) :
  all_below f n = true -> forall a, (0 <= a < Z.of_nat n)%Z -> f a = true.
Proof.
  induction n as [|n IH]; intros H a Ha; [lia|].
  simpl in H. apply andb_true_iff in H as [H1 H2].
  destruct (decide (a = Z.of_nat n)) as [->|Hne]; [done|].
  apply IH; [done|lia].
Qed.

Lemma pad4_table : all_below pad4_step_ok (Z.to_nat 9999) = true.
Proof. vm_compute. reflexivity. Qed.

Lemma pad4_step (a : Z) : (0 <= a < 9999)%Z -> pad4_step_ok a = true.
Proof.
  intros Ha. apply (all_below_spec _ _ pad4_table).
  rewrite Z2Nat.id; lia.
Qed.

Lemma pad4_length (a : Z) :
  (0 <= a < 10000)%Z -> String.length (pad4 a) = 4%nat.
Proof.
  intros Ha. destruct (decide (a = 9999%Z)) as [->|Hne]; [reflexivity|].
  assert (Hr : (0 <= a < 9999)%Z) by lia.
  apply pad4_step, andb_true_iff in Hr as [Hr _].
  by apply Nat.eqb_eq in Hr.
Qed.

Lemma pad4_succ_lt (a : Z) :
  (0 <= a < 9999)%Z -> path_lt (pad4 a) (pad4 (a + 1)).
Proof.
  intros Ha. by apply pad4_step, andb_true_iff in Ha as [_ Ha].
Qed.

#[global] Instance path_lt_trans : Transitive path_lt.
Proof.
  intros a b c [Hab Hne1]%path_lt_le_ne [Hbc Hne2]%path_lt_le_ne.
  apply path_lt_le_ne. split; [by etrans|].
  intros ->. apply Hne1. by apply (anti_symm path_le).
Qed.

Lemma pad4_lt (a b : Z) :
  (0 <= a)%Z -> (a < b)%Z -> (b < 10000)%Z -> path_lt (pad4 a) (pad4 b).
Proof.
  intros Ha Hab Hb.
  assert (forall n : nat, (a + 1 + Z.of_nat n < 10000)%Z ->
                          path_lt (pad4 a) (pad4 (a + 1 + Z.of_nat n))) as H.
  { induction n as [|n IH]; intros Hn.
    - rewrite Z.add_0_r. apply pad4_succ_lt. lia.
    - etrans; [apply IH; lia|].
      replace (a + 1 + Z.of_nat (S n))%Z with (a + 1 + Z.of_nat n + 1)%Z by lia.
      apply pad4_succ_lt. lia. }
  specialize (H (Z.to_nat (b - a - 1))).
  rewrite Z2Nat.id in H by lia.
  replace (a + 1 + (b - a - 1))%Z with b in H by lia. by apply H.
Qed.

Lemma compare_app_lt (s1 s2 x y : string) :
  String.length s1 = String.length s2 ->
  String.compare s1 s2 = Lt ->
  String.compare (s1 +:+ x) (s2 +:+ y) = Lt.
Proof.
  revert s2. induction s1 as [|c1 s1 IH]; intros [|c2 s2]; simpl; try done.
  intros [= Hlen] H. destruct (Ascii.compare c1 c2); [by apply IH|done|done].
Qed.

Lemma new_name_lt (a b : Z) (f g : string) :
  (0 <= a)%Z -> (a < b)%Z -> (b < 10000)%Z ->
  path_lt (new_name a f) (new_name b g).
Proof.
  intros Ha Hab Hb. pose proof (pad4_lt a b Ha Hab Hb) as Hlt.
  unfold path_lt, String.ltb in *. unfold new_name.
  rewrite compare_app_lt; [done| |].
  - rewrite !pad4_length by lia. done.
  - by destruct (String.compare (pad4 a) (pad4 b)).
Qed.

Lemma elem_of_enumerate {A} (l : list A) (start i : Z) (x : A) :
  (i, x) ∈ enumerate l start ->
  (start <= i < start + Z.of_nat (length l))%Z /\ x ∈ l.
Proof.
  revert start. induction l as [|y l IH]; intros start Hin.
  { by apply elem_of_nil in Hin. }
  cbn [enumerate length] in *. apply elem_of_cons in Hin as [[= -> ->]|Hin].
  - split; [lia|left].
  - apply IH in Hin as [? ?]. split; [lia|by right].
Qed.

Lemma enumerate_snd {A} (l : list A) (start : Z) : (enumerate l start).*2 = l.
Proof. revert start. induction l as [|y l IH]; intros start; cbn; [done|]. by rewrite IH. Qed.

(** Within 0..9999 the planned targets come out in strictly increasing
    order. *)
Lemma targets_sorted (l : list string) (start : Z) :
  (0 <= start)%Z -> (start + Z.of_nat (length l) <= 10000)%Z ->
  StronglySorted path_lt (plan_of (enumerate l start)).*2.
Proof.
  revert start. induction l as [|f l IH]; intros start H0 Hlen; [constructor|].
  cbn [enumerate length plan_of map fmap list_fmap fst snd] in *.
  constructor.
  - apply IH; lia.
  - apply Forall_forall. intros t Ht.
    apply list_elem_of_fmap in Ht as ([s t'] & -> & Ht).
    apply list_elem_of_fmap in Ht as ([j g] & [= -> ->] & Hin).
    apply elem_of_enumerate in Hin as [Hj _]. cbn [fst snd].
    apply new_name_lt; lia.
Qed.

(** ** A run without collision or failure, and the run after it *)

Lemma os_rename_Some (d d' : dirmap) (f t : string) :
  os_rename d f t = Some d' ->
  exists e, d !! f = Some e /\ d' = <[t := e]> (delete f d).
Proof.
  unfold os_rename. destruct (rename_fault f t); [done|].
  destruct (d !! f) as [e|]; [|done]. intros H. exists e. split; [done|].
  destruct e, (d !! t) as [[?|]|]; congruence.
Qed.

Lemma os_rename_size (d d' : dirmap) (f t : string) :
  f <> t ->
  os_rename d f t = Some d' ->
  (d !! t = None /\ size d' = size d) \/ (d !! t <> None /\ size d' < size d).
Proof.
  intros Hne H. apply os_rename_Some in H as (e & Hf & ->).
  rewrite map_size_insert, lookup_delete_ne by done.
  rewrite map_size_delete, Hf.
  assert (size d <> 0).
  { intros Hz. apply map_size_empty_iff in Hz. subst d.
    by rewrite lookup_empty in Hf. }
  destruct (d !! t); [right|left]; split; try done; cbn; lia.
Qed.

(** The full variant: a live loop whose outcomes are all settled applied
    the plan cleanly. *)
Lemma rename_loop_clean (p : string) (its : list (Z * string)) (c : nat)
    (fs : filesystem) (d : dirmap) os c' fs' tr :
  folder_at fs p = Some d ->
  rename_loop p false its c fs = Ran (inr (os, c')) fs' tr ->
  Forall settled os ->
  exists d', folder_at fs' p = Some d' /\ applies_cleanly d its d'.
Proof.
  revert c fs d os c' fs' tr.
  induction its as [|[i f] rest IH]; intros c fs d os c' fs' tr Hd Hrun Hall.
  { cbn in Hrun. injection Hrun as <- <- <- <-. exists d. split; [done|constructor]. }
  destruct (rename_body_total p false i f c fs)
    as (o & c1 & fs1 & tr1 & Hbody & _).
  erewrite rename_loop_cons in Hrun by exact Hbody.
  destruct (rename_loop p false rest c1 fs1) as [[e|[os2 c2]] fs2 tr2] eqn:Hrest;
    [discriminate|].
  injection Hrun as <- <- <- <-.
  apply Forall_cons in Hall as [Ho Hall].
  rewrite rename_body_run in Hbody. cbv zeta in Hbody. rewrite Hd in Hbody.
  destruct (String.eqb f (new_name i f)) eqn:E.
  { apply String.eqb_eq in E. injection Hbody as <- <- <- <-.
    destruct (IH _ _ _ _ _ _ _ Hd Hrest Hall) as (d' & Hd' & Hclean).
    exists d'. split; [done|]. by apply clean_named. }
  apply String.eqb_neq in E.
  destruct (bool_decide (is_Some (d !! new_name i f))) eqn:Hex.
  { injection Hbody as <- <- <- <-. by destruct Ho. }
  apply bool_decide_eq_false in Hex.
  cbn [mbind option_bind] in Hbody.
  destruct (os_rename d f (new_name i f)) as [d1|] eqn:Hren.
  - injection Hbody as <- <- <- <-.
    destruct (os_rename_Some _ _ _ _ Hren) as (e & Hf & ->).
    assert (Hd1 : folder_at (<[p := Folder (<[new_name i f := e]> (delete f d))]> fs) p
                  = Some (<[new_name i f := e]> (delete f d))).
    { unfold folder_at. by rewrite lookup_insert_eq. }
    destruct (IH _ _ _ _ _ _ _ Hd1 Hrest Hall) as (d' & Hd' & Hclean).
    exists d'. split; [done|].
    eapply clean_moved; try done.
    destruct (d !! new_name i f) eqn:Ht; [|done]. exfalso. apply Hex. eauto.
  - injection Hbody as <- <- <- <-. by destruct Ho.
Qed.

(** The minimal variant: a loop whose outcomes are all settled and which
    leaves as many entries in the folder as it found applied the plan
    cleanly. *)
Lemma simple_loop_clean (p : string) (its : list (Z * string))
    (fs : filesystem) (d : dirmap) os fs' tr :
  folder_at fs p = Some d ->
  simple_loop p its fs = Ran (inr os) fs' tr ->
  Forall settled os ->
  exists d', folder_at fs' p = Some d' /\ size d' <= size d
             /\ (size d' = size d -> applies_cleanly d its d').
Proof.
  revert fs d os fs' tr.
  induction its as [|[i f] rest IH]; intros fs d os fs' tr Hd Hrun Hall.
  { cbn in Hrun. injection Hrun as <- <- <-. exists d.
    split; [done|]. split; [done|]. intros _. constructor. }
  destruct (simple_body_total p i f fs) as (o & fs1 & tr1 & Hbody & _).
  erewrite simple_loop_cons in Hrun by exact Hbody.
  destruct (simple_loop p rest fs1) as [[e|os2] fs2 tr2] eqn:Hrest;
    [discriminate|].
  injection Hrun as <- <- <-.
  apply Forall_cons in Hall as [Ho Hall].
  rewrite simple_body_run in Hbody. cbv zeta in Hbody. rewrite Hd in Hbody.
  destruct (String.eqb f (new_name i f)) eqn:E.
  { apply String.eqb_eq in E. injection Hbody as <- <- <-.
    destruct (IH _ _ _ _ _ Hd Hrest Hall) as (d' & Hd' & Hle & Hclean).
    exists d'. split; [done|]. split; [done|].
    intros Hsz. apply clean_named; auto. }
  apply String.eqb_neq in E.
  cbn [mbind option_bind] in Hbody.
  destruct (os_rename d f (new_name i f)) as [d1|] eqn:Hren.
  - injection Hbody as <- <- <-.
    assert (Hd1 : folder_at (<[p := Folder d1]> fs) p = Some d1).
    { unfold folder_at. by rewrite lookup_insert_eq. }
    destruct (IH _ _ _ _ _ Hd1 Hrest Hall) as (d' & Hd' & Hle & Hclean).
    exists d'. split; [done|].
    destruct (os_rename_size _ _ _ _ E Hren) as [[Hfree Hsz]|[_ Hsz]].
    + split; [lia|]. intros Hsz'.
      destruct (os_rename_Some _ _ _ _ Hren) as (e & Hf & ->).
      eapply clean_moved; try done. apply Hclean. lia.
    + split; [lia|]. intros Hsz'. lia.
  - injection Hbody as <- <- <-. by destruct Ho.
Qed.

(** After a clean application the eligible entries are the planned
    targets. *)
Lemma applies_cleanly_eligible (exts : list string) (d d' : dirmap)
    (its : list (Z * string)) :
  Forall well_formed_ext exts ->
  applies_cleanly d its d' ->
  NoDup its.*2 ->
  (forall f, f ∈ its.*2 -> eligible exts d f = true) ->
  forall n, eligible exts d' n = true
            <-> (eligible exts d n = true /\ n ∉ its.*2) \/ n ∈ (plan_of its).*2.
Proof.
  intros Hexts Hclean. induction Hclean as
    [d|d i f rest d' Hnamed Hclean IH|d i f e rest d' Hne Hf Hfree Hclean IH];
    intros Hnd Hin n.
  - cbn. split; [intros H; left; split; [done|apply not_elem_of_nil]|].
    intros [[? _]|H]; [done|]. by apply elem_of_nil in H.
  - cbn [fmap list_fmap fst snd plan_of map] in *.
    apply NoDup_cons in Hnd as [Hnotin Hnd].
    rewrite IH; [|done|intros g Hg; apply Hin; by right].
    rewrite <- Hnamed. fold (plan_of rest). rewrite !elem_of_cons.
    assert (Hfe : eligible exts d f = true) by (apply Hin; by left).
    destruct (decide (n = f)) as [->|Hnf]; intuition congruence.
  - cbn [fmap list_fmap fst snd plan_of map] in *.
    apply NoDup_cons in Hnd as [Hnotin Hnd].
    assert (Hfe : eligible exts d f = true) by (apply Hin; by left).
    apply eligible_spec in Hfe as [[x Hx] Hext].
    assert (e = EFile x) as -> by congruence.
    assert (Hrest_ne : forall g, g ∈ rest.*2 -> g <> f /\ g <> new_name i f).
    { intros g Hg. split; [by intros ->|]. intros ->.
      assert (Hge : eligible exts d (new_name i f) = true) by (apply Hin; by right).
      apply eligible_spec in Hge as [[y Hy] _]. congruence. }
    assert (Hstep : forall m,
               eligible exts (<[new_name i f := EFile x]> (delete f d)) m = true
               <-> m = new_name i f \/ (m <> f /\ eligible exts d m = true)).
    { intros m. rewrite !eligible_spec.
      destruct (decide (m = new_name i f)) as [->|Hmt].
      - rewrite lookup_insert_eq.
        rewrite (proj1 (new_name_fixed exts i f Hexts Hext)).
        split; [by left|]. intros _. split; [eauto|].
        rewrite Forall_forall in Hexts. by rewrite (proj2 (Hexts _ Hext)).
      - rewrite lookup_insert_ne by done.
        destruct (decide (m = f)) as [->|Hmf].
        + rewrite lookup_delete_eq. split; [by intros [[? ?] _]|].
          intros [?|[? _]]; done.
        + rewrite lookup_delete_ne by done. split; [by right|].
          intros [?|[_ ?]]; done. }
    rewrite IH; [|done|]; cycle 1.
    { intros g Hg. apply Hstep. right. split; [by apply Hrest_ne|].
      apply Hin. by right. }
    fold (plan_of rest). rewrite Hstep, !elem_of_cons.
    pose proof (Hrest_ne n) as Hrn.
    destruct (decide (n = new_name i f)) as [->|Hnt]; intuition congruence.
Qed.

Lemma image_list_after_clean_run (exts : list string) (d d' : dirmap) (start : Z) :
  Forall well_formed_ext exts ->
  applies_cleanly d (enumerate (image_list exts d) start) d' ->
  (0 <= start)%Z ->
  (start + Z.of_nat (length (image_list exts d)) <= 10000)%Z ->
  image_list exts d' = (plan_of (enumerate (image_list exts d) start)).*2.
Proof.
  intros Hexts Hclean H0 Hlen.
  pose proof (targets_sorted (image_list exts d) start H0 Hlen) as Hsorted.
  assert (Hmem : forall n, n ∈ image_list exts d'
                           <-> n ∈ (plan_of (enumerate (image_list exts d) start)).*2).
  { intros n. rewrite image_list_elem_of.
    rewrite (applies_cleanly_eligible exts d d' _ Hexts Hclean).
    - rewrite enumerate_snd. split; [|by right].
      intros [[He Hn]|?]; [|done]. by apply image_list_elem_of in He.
    - rewrite enumerate_snd. apply StronglySorted_lt_NoDup, image_list_sorted.
    - intros f. rewrite enumerate_snd. apply image_list_elem_of. }
  apply (Sorted_unique path_le).
  - apply sorted_Sorted.
  - apply StronglySorted_Sorted, StronglySorted_lt_le, Hsorted.
  - apply NoDup_Permutation; [|by apply StronglySorted_lt_NoDup|done].
    apply StronglySorted_lt_NoDup, image_list_sorted.
Qed.

Lemma targets_are_named (exts : list string) (files : list string) (start : Z) :
  Forall well_formed_ext exts ->
  (forall f, f ∈ files -> lower (suffix f) ∈ exts) ->
  forall i t, (i, t) ∈ enumerate (plan_of (enumerate files start)).*2 start ->
              t = new_name i t.
Proof.
  intros Hexts. revert start.
  induction files as [|f files IH]; intros start Hin i t Hit.
  { by apply elem_of_nil in Hit. }
  cbn [enumerate plan_of map fmap list_fmap fst snd] in Hit.
  apply elem_of_cons in Hit as [[= -> ->]|Hit].
  - symmetry. eapply new_name_fixed; [done|]. apply Hin. by left.
  - eapply (IH (start + 1)%Z); [|exact Hit]. intros g Hg. apply Hin. by right.
Qed.

Lemma rename_loop_all_named (p : string) (dry_run : bool)
    (its : list (Z * string)) (c : nat) (fs : filesystem) :
  (forall i f, (i, f) ∈ its -> f = new_name i f) ->
  rename_loop p dry_run its c fs
  = Ran (inr (map (fun it => AlreadyNamed it.2) its, c)) fs
        (map (fun it => Print (MsgSkipping it.2)) its).
Proof.
  induction its as [|[i f] rest IH]; intros Hall; [reflexivity|].
  erewrite rename_loop_cons; cycle 1.
  { rewrite rename_body_run. cbv zeta.
    rewrite (proj2 (String.eqb_eq _ _)) by (apply Hall; by left). reflexivity. }
  rewrite IH by (intros j g Hg; apply Hall; by right). reflexivity.
Qed.

Lemma simple_loop_all_named (p : string) (its : list (Z * string)) (fs : filesystem) :
  (forall i f, (i, f) ∈ its -> f = new_name i f) ->
  simple_loop p its fs = Ran (inr (map (fun it => AlreadyNamed it.2) its)) fs [].
Proof.
  induction its as [|[i f] rest IH]; intros Hall; [reflexivity|].
  erewrite simple_loop_cons; cycle 1.
  { rewrite simple_body_run. cbv zeta.
    rewrite (proj2 (String.eqb_eq _ _)) by (apply Hall; by left). reflexivity. }
  rewrite IH by (intros j g Hg; apply Hall; by right). reflexivity.
Qed.

Lemma no_rename_in_is_file_calls (p : string) (l : list string) :
  List.filter is_rename_call (map (fun n => Call (SysIsFile p n)) l) = [].
Proof. induction l; [done|]. by cbn. Qed.

Lemma no_rename_in_skips (its : list (Z * string)) :
  List.filter is_rename_call (map (fun it => Print (MsgSkipping it.2)) its) = [].
Proof. induction its; [done|]. by cbn. Qed.

Lemma all_already_named (its : list (Z * string)) :
  Forall (fun o => is_already_named o = true)
         (map (fun it => AlreadyNamed it.2) its).
Proof. induction its; constructor; done. Qed.

Lemma planned_length (os : list outcome) (its : list (Z * string)) :
  planned os = plan_of its -> length os = length its.
Proof.
  intros H. apply (f_equal (@length _)) in H.
  unfold planned, plan_of in H. by rewrite !length_map in H.
Qed.

Lemma enumerate_length {A} (l : list A) (start : Z) :
  length (enumerate l start) = length l.
Proof. revert start. induction l; intros start; cbn; [done|]. by rewrite IHl. Qed.

Lemma targets_length (files : list string) (start : Z) :
  length (plan_of (enumerate files start)).*2 = length files.
Proof. unfold plan_of. by rewrite length_fmap, length_map, enumerate_length. Qed.

(** The full variant, run again after a run without collision or failure. *)
Lemma full_second_run (p : string) (start_number : Z) (fs : filesystem)
    (d : dirmap) (os1 : list outcome) :
  let first := rename_images p start_number false fs in
  let second := rename_images p start_number false (final first) in
  folder_at fs p = Some d ->
  result first = inr os1 ->
  Forall settled os1 ->
  (0 <= start_number)%Z ->
  (start_number + Z.of_nat (length os1) <= 10000)%Z ->
  final second = final first
  /\ List.filter is_rename_call (trace second) = []
  /\ exists os2, result second = inr os2
                 /\ length os2 = length os1
                 /\ Forall (fun o => is_already_named o = true) os2.
Proof.
  cbv zeta. intros Hd. rewrite (rename_images_folder _ _ _ _ d) by done.
  cbv zeta. rewrite result_with_prefix, final_with_prefix.
  destruct (bool_decide (image_list IMAGE_EXTENSIONS d = [])) eqn:E.
  { cbn [result final]. intros [= <-] _ _ _.
    rewrite (rename_images_folder _ _ _ _ d) by done. cbv zeta. rewrite E.
    cbn [with_prefix final trace result].
    rewrite !List.filter_app, no_rename_in_is_file_calls.
    repeat split. by exists []. }
  apply bool_decide_eq_false in E.
  rewrite result_with_prefix, final_with_prefix.
  destruct (rename_loop_total p false
              (enumerate (image_list IMAGE_EXTENSIONS d) start_number) 0 fs)
    as (os & fs1 & tr1 & Hrun & Hplan & _).
  rewrite Hrun. cbn [full_summary negb result final].
  intros [= <-] Hall H0 Hlen.
  destruct (rename_loop_clean _ _ _ _ _ _ _ _ _ Hd Hrun Hall) as (d1 & Hd1 & Hclean).
  apply planned_length in Hplan. rewrite enumerate_length in Hplan.
  rewrite Hplan in Hlen.
  pose proof (image_list_after_clean_run _ _ _ _ IMAGE_EXTENSIONS_well_formed
                Hclean H0 Hlen) as Hlist.
  rewrite (rename_images_folder _ _ _ _ d1) by done. cbv zeta.
  rewrite Hlist.
  rewrite bool_decide_eq_false_2; cycle 1.
  { intros Hnil. apply (f_equal (@length _)) in Hnil.
    rewrite targets_length in Hnil. by destruct (image_list IMAGE_EXTENSIONS d). }
  rewrite rename_loop_all_named; cycle 1.
  { apply (targets_are_named IMAGE_EXTENSIONS); [apply IMAGE_EXTENSIONS_well_formed|].
    intros f Hf. by apply image_list_elem_of, eligible_spec in Hf as [_ ?]. }
  cbn [full_summary negb with_prefix final trace result].
  split; [done|]. split.
  - rewrite !List.filter_app, no_rename_in_is_file_calls, no_rename_in_skips.
    reflexivity.
  - eexists. split; [reflexivity|]. split; [|apply all_already_named].
    by rewrite length_map, enumerate_length, targets_length.
Qed.

(** The minimal variant, run again after a run without failure that
    replaced no entry. *)
Lemma simple_second_run (p : string) (fs : filesystem)
    (d d1 : dirmap) (os1 : list outcome) :
  let first := rename_images_in_folder p fs in
  let second := rename_images_in_folder p (final first) in
  folder_at fs p = Some d ->
  result first = inr os1 ->
  Forall settled os1 ->
  folder_at (final first) p = Some d1 ->
  size d1 = size d ->
  (Z.of_nat (length os1) <= 9999)%Z ->
  final second = final first
  /\ List.filter is_rename_call (trace second) = []
  /\ exists os2, result second = inr os2
                 /\ length os2 = length os1
                 /\ Forall (fun o => is_already_named o = true) os2.
Proof.
  cbv zeta. intros Hd. rewrite (rename_images_in_folder_folder _ _ d) by done.
  cbv zeta. rewrite result_with_prefix, final_with_prefix.
  destruct (bool_decide (image_list image_extensions d = [])) eqn:E.
  { cbn [result final]. intros [= <-] _ _ _ _.
    rewrite (rename_images_in_folder_folder _ _ d) by done. cbv zeta. rewrite E.
    cbn [with_prefix final trace result].
    rewrite !List.filter_app, no_rename_in_is_file_calls.
    repeat split. by exists []. }
  apply bool_decide_eq_false in E.
  rewrite result_with_prefix, final_with_prefix.
  destruct (simple_loop_total p (enumerate (image_list image_extensions d) 1) fs)
    as (os & fs1 & tr1 & Hrun & Hplan).
  rewrite Hrun. cbn [simple_summary result final].
  intros [= <-] Hall Hd1 Hsize Hlen.
  destruct (simple_loop_clean _ _ _ _ _ _ _ Hd Hrun Hall)
    as (d1' & Hd1' & _ & Hclean).
  assert (d1' = d1) as -> by congruence.
  specialize (Hclean Hsize).
  apply planned_length in Hplan. rewrite enumerate_length in Hplan.
  rewrite Hplan in Hlen.
  assert (Hlist : image_list image_extensions d1
                  = (plan_of (enumerate (image_list image_extensions d) 1)).*2).
  { apply image_list_after_clean_run;
      [apply image_extensions_well_formed|done|lia|lia]. }
  rewrite (rename_images_in_folder_folder _ _ d1) by done. cbv zeta.
  rewrite Hlist.
  rewrite bool_decide_eq_false_2; cycle 1.
  { intros Hnil. apply (f_equal (@length _)) in Hnil.
    rewrite targets_length in Hnil. by destruct (image_list image_extensions d). }
  rewrite simple_loop_all_named; cycle 1.
  { apply (targets_are_named image_extensions); [apply image_extensions_well_formed|].
    intros f Hf. by apply image_list_elem_of, eligible_spec in Hf as [_ ?]. }
  cbn [simple_summary with_prefix final trace result].
  split; [done|]. split.
  - rewrite !List.filter_app, no_rename_in_is_file_calls. reflexivity.
  - eexists. split; [reflexivity|]. split; [|apply all_already_named].
    by rewrite length_map, enumerate_length, targets_length.
Qed.

(** C3, amended.  Take a first live run on an existing folder that meets no
    collision and no failure (every entry is renamed or already named) and,
    for the minimal variant, which has no collision check, that leaves as
    many entries in the folder as it found, so that no rename replaced an
    entry; let the numbers used lie in 0..9999.  Then the second run with
    the same arguments finds every file under its target name: each entry is
    an already-named skip, no rename is called and the file system is left
    as the first run left it. *)
Theorem second_run_is_noop (p : string) (start_number : Z) (fs : filesystem)
    (d : dirmap) :
  folder_at fs p = Some d ->
  (forall os1,
     let first := rename_images p start_number false fs in
     let second := rename_images p start_number false (final first) in
     result first = inr os1 ->
     Forall settled os1 ->
     (0 <= start_number)%Z ->
     (start_number + Z.of_nat (length os1) <= 10000)%Z ->
     final second = final first
     /\ List.filter is_rename_call (trace second) = []
     /\ exists os2, result second = inr os2
                    /\ length os2 = length os1
                    /\ Forall (fun o => is_already_named o = true) os2)
  /\ (forall os1 d1,
        let first := rename_images_in_folder p fs in
        let second := rename_images_in_folder p (final first) in
        result first = inr os1 ->
        Forall settled os1 ->
        folder_at (final first) p = Some d1 ->
        size d1 = size d ->
        (Z.of_nat (length os1) <= 9999)%Z ->
        final second = final first
        /\ List.filter is_rename_call (trace second) = []
        /\ exists os2, result second = inr os2
                       /\ length os2 = length os1
                       /\ Forall (fun o => is_already_named o = true) os2).
Proof.
  intros Hd. split.
  - intros os1. by apply (full_second_run p start_number fs d).
  - intros os1 d1. by apply (simple_second_run p fs d d1).
Qed.

(** ** The total a dry run reports *)

Lemma rename_body_named (folder : string) (dry_run : bool) (i : Z) (f : string)
    (c : nat) (fs : filesystem) o c' fs' tr :
  rename_body folder dry_run (i, f) c fs = Ran (inr (o, c')) fs' tr ->
  is_already_named o = String.eqb f (new_name i f).
Proof.
  rewrite rename_body_run. cbv zeta.
  destruct (String.eqb f (new_name i f)); [by intros [= <- _ _ _]|].
  destruct (match folder_at fs folder with Some _ => _ | None => _ end);
    [by intros [= <- _ _ _]|].
  destruct dry_run; [by intros [= <- _ _ _]|].
  destruct (folder_at fs folder ≫= _); by intros [= <- _ _ _].
Qed.

Lemma rename_loop_named (folder : string) (dry_run : bool)
    (its : list (Z * string)) (c : nat) (fs : filesystem) os c' fs' tr :
  rename_loop folder dry_run its c fs = Ran (inr (os, c')) fs' tr ->
  map is_already_named os
  = map (fun it => String.eqb it.2 (new_name it.1 it.2)) its.
Proof.
  revert c fs os c' fs' tr.
  induction its as [|[i f] rest IH]; intros c fs os c' fs' tr Hrun.
  { cbn in Hrun. by injection Hrun as <- <- <- <-. }
  destruct (rename_body_total folder dry_run i f c fs)
    as (o & c1 & fs1 & tr1 & Hbody & _).
  erewrite rename_loop_cons in Hrun by exact Hbody.
  destruct (rename_loop folder dry_run rest c1 fs1) as [[e|[os2 c2]] fs2 tr2] eqn:Hrest;
    [discriminate|].
  injection Hrun as <- <- <- <-. cbn [map fst snd].
  by rewrite (rename_body_named _ _ _ _ _ _ _ _ _ _ Hbody), (IH _ _ _ _ _ _ Hrest).
Qed.

Lemma py_index_middle (pre l : list string) (f : string) :
  f ∉ pre -> py_index f (pre ++ f :: l) = Some (length pre).
Proof.
  induction pre as [|g pre IH]; intros Hnotin; cbn.
  - by rewrite String.eqb_refl.
  - apply not_elem_of_cons in Hnotin as [Hne Hnotin].
    rewrite (proj2 (String.eqb_neq g f)) by done. by rewrite IH.
Qed.

(** Line 100 counts the entries whose name differs from their target. *)
Lemma count_not_named_spec (pre l : list string) (start_number : Z) :
  NoDup (pre ++ l) ->
  count_not_named (pre ++ l) start_number l
  = Some (length (List.filter
                    (fun it => negb (String.eqb it.2 (new_name it.1 it.2)))
                    (enumerate l (start_number + Z.of_nat (length pre))))).
Proof.
  revert pre. induction l as [|f l IH]; intros pre Hnd; [done|].
  cbn [count_not_named enumerate List.filter fst snd].
  rewrite py_index_middle; cycle 1.
  { apply NoDup_app in Hnd as (_ & Hdisj & _). intros Hin.
    apply (Hdisj f Hin). left. }
  cbn [mbind option_bind].
  replace (pre ++ f :: l) with ((pre ++ [f]) ++ l) in * by (by rewrite <- app_assoc).
  rewrite (IH (pre ++ [f])) by done. cbn [mbind option_bind].
  rewrite length_app. cbn [length].
  replace (start_number + Z.of_nat (length pre + 1))%Z
    with (start_number + Z.of_nat (length pre) + 1)%Z by lia.
  replace (Z.of_nat (length pre) + start_number)%Z
    with (start_number + Z.of_nat (length pre))%Z by lia.
  by destruct (String.eqb f (new_name (start_number + Z.of_nat (length pre)) f)).
Qed.

Lemma filter_length_map {A B} (f : A -> bool) (g : B -> bool)
    (l : list A) (k : list B) :
  map f l = map g k -> length (List.filter f l) = length (List.filter g k).
Proof.
  revert k. induction l as [|x l IH]; intros [|y k]; cbn; try done.
  intros [= Hxy Hrest]. rewrite Hxy. destruct (g y); cbn; by rewrite (IH k).
Qed.

(** X14.  On every folder with image files, the total a dry run reports is
    the number of entries that are not already named: the entries it would
    rename and the entries it skips for a collision. *)
Lemma dry_run_total_counts_not_named (p : string) (start_number : Z)
    (fs : filesystem) (d : dirmap) (os : list outcome) :
  folder_at fs p = Some d ->
  result (rename_images p start_number true fs) = inr os ->
  os <> [] ->
  last (printed (trace (rename_images p start_number true fs)))
  = Some (MsgWouldRenameTotal
            (length (List.filter (fun o => negb (is_already_named o)) os))).
Proof.
  intros Hd. rewrite (rename_images_folder _ _ _ _ d) by done. cbv zeta.
  rewrite result_with_prefix, trace_with_prefix.
  destruct (bool_decide (image_list IMAGE_EXTENSIONS d = [])).
  { cbn [result]. intros [= <-] Hne. done. }
  rewrite result_with_prefix, trace_with_prefix.
  destruct (rename_loop_total p true
              (enumerate (image_list IMAGE_EXTENSIONS d) start_number) 0 fs)
    as (os' & fs1 & tr1 & Hrun & _).
  rewrite Hrun. cbn [full_summary negb].
  pose proof (count_not_named_spec [] (image_list IMAGE_EXTENSIONS d) start_number)
    as Hcount.
  cbn [app length] in Hcount. rewrite Z.add_0_r in Hcount.
  rewrite Hcount by apply StronglySorted_lt_NoDup, image_list_sorted.
  cbn [result trace]. intros [= <-] _.
  rewrite !app_assoc, printed_app. cbn [printed omap]. cbn.
  rewrite last_snoc. do 2 f_equal. symmetry.
  apply filter_length_map.
  apply rename_loop_named in Hrun. apply (f_equal (map negb)) in Hrun.
  rewrite !map_map in Hrun. exact Hrun.
Qed.

(** ** What a run leaves alone *)

(** One iteration of either loop leaves the folder as it is or performs one
    rename in it; the full variant renames onto a free name only. *)
Lemma rename_body_dir (p : string) (dry_run : bool) (i : Z) (f : string)
    (c : nat) (fs : filesystem) (d : dirmap) o c' fs' tr :
  folder_at fs p = Some d ->
  rename_body p dry_run (i, f) c fs = Ran (inr (o, c')) fs' tr ->
  (fs' = fs
   \/ exists d', fs' = <[p := Folder d']> fs /\ dry_run = false
                 /\ f <> new_name i f /\ d !! new_name i f = None
                 /\ os_rename d f (new_name i f) = Some d').
Proof.
  intros Hd. rewrite rename_body_run. cbv zeta. rewrite Hd.
  destruct (String.eqb f (new_name i f)) eqn:E; [intros [= _ _ <- _]; by left|].
  apply String.eqb_neq in E.
  destruct (bool_decide (is_Some (d !! new_name i f))) eqn:Hex;
    [intros [= _ _ <- _]; by left|].
  apply bool_decide_eq_false in Hex.
  destruct dry_run; [intros [= _ _ <- _]; by left|].
  cbn [mbind option_bind].
  destruct (os_rename d f (new_name i f)) as [d1|] eqn:Hren;
    [|intros [= _ _ <- _]; by left].
  intros [= _ _ <- _]. right. exists d1. repeat split; try done.
  destruct (d !! new_name i f) eqn:Ht; [|done]. exfalso. apply Hex. eauto.
Qed.

Lemma simple_body_dir (p : string) (i : Z) (f : string)
    (fs : filesystem) (d : dirmap) o fs' tr :
  folder_at fs p = Some d ->
  simple_body p (i, f) fs = Ran (inr o) fs' tr ->
  (fs' = fs
   \/ exists d', fs' = <[p := Folder d']> fs
                 /\ f <> new_name i f
                 /\ os_rename d f (new_name i f) = Some d').
Proof.
  intros Hd. rewrite simple_body_run. cbv zeta. rewrite Hd.
  destruct (String.eqb f (new_name i f)) eqn:E; [intros [= _ <- _]; by left|].
  apply String.eqb_neq in E. cbn [mbind option_bind].
  destruct (os_rename d f (new_name i f)) as [d1|] eqn:Hren;
    [|intros [= _ <- _]; by left].
  intros [= _ <- _]. right. by exists d1.
Qed.

Lemma folder_at_insert (fs : filesystem) (p : string) (d : dirmap) :
  folder_at (<[p := Folder d]> fs) p = Some d.
Proof. unfold folder_at. by rewrite lookup_insert_eq. Qed.

(** A property of the folder that every rename onto a free name keeps is
    kept by the loop of the full variant. *)
Lemma rename_loop_invariant (I : dirmap -> Prop) (p : string) (dry_run : bool)
    (its : list (Z * string)) (c : nat) (fs : filesystem) (d : dirmap) :
  (forall d0 d1 i f,
     (i, f) ∈ its -> I d0 -> f <> new_name i f -> d0 !! new_name i f = None ->
     os_rename d0 f (new_name i f) = Some d1 -> I d1) ->
  folder_at fs p = Some d ->
  I d ->
  exists d', folder_at (final (rename_loop p dry_run its c fs)) p = Some d'
             /\ I d'
             /\ final (rename_loop p dry_run its c fs) = <[p := Folder d']> fs.
Proof.
  revert c fs d. induction its as [|[i f] rest IH]; intros c fs d Hstep Hd HI.
  { exists d. cbn. split; [done|]. split; [done|].
    symmetry. apply insert_id. by apply folder_at_Some. }
  destruct (rename_body_total p dry_run i f c fs)
    as (o & c1 & fs1 & tr1 & Hbody & _).
  erewrite rename_loop_cons by exact Hbody.
  assert (exists d1, folder_at fs1 p = Some d1 /\ I d1 /\ fs1 = <[p := Folder d1]> fs)
    as (d1 & Hd1 & HI1 & Hfs1).
  { destruct (rename_body_dir _ _ _ _ _ _ _ _ _ _ _ Hd Hbody)
      as [->|(d1 & -> & _ & Hne & Hfree & Hren)].
    - exists d. split; [done|]. split; [done|].
      symmetry. apply insert_id. by apply folder_at_Some.
    - exists d1. split; [apply folder_at_insert|]. split; [|done].
      eapply Hstep; try done. left. }
  destruct (IH c1 fs1 d1) as (d' & Hd' & HI' & Hfs'); try done.
  { intros d0 d2 j g Hin. apply Hstep. by right. }
  exists d'.
  destruct (rename_loop p dry_run rest c1 fs1) as [[e|[os c2]] fs2 tr2];
    cbn [final] in *; (split; [done|]; split; [done|]);
    by rewrite Hfs', Hfs1, insert_insert_eq.
Qed.

(** The loop of the minimal variant keeps what every rename keeps, onto a
    free name or not. *)
Lemma simple_loop_invariant (I : dirmap -> Prop) (p : string)
    (its : list (Z * string)) (fs : filesystem) (d : dirmap) :
  (forall d0 d1 i f,
     (i, f) ∈ its -> I d0 -> f <> new_name i f ->
     os_rename d0 f (new_name i f) = Some d1 -> I d1) ->
  folder_at fs p = Some d ->
  I d ->
  exists d', folder_at (final (simple_loop p its fs)) p = Some d'
             /\ I d'
             /\ final (simple_loop p its fs) = <[p := Folder d']> fs.
Proof.
  revert fs d. induction its as [|[i f] rest IH]; intros fs d Hstep Hd HI.
  { exists d. cbn. split; [done|]. split; [done|].
    symmetry. apply insert_id. by apply folder_at_Some. }
  destruct (simple_body_total p i f fs) as (o & fs1 & tr1 & Hbody & _).
  erewrite simple_loop_cons by exact Hbody.
  assert (exists d1, folder_at fs1 p = Some d1 /\ I d1 /\ fs1 = <[p := Folder d1]> fs)
    as (d1 & Hd1 & HI1 & Hfs1).
  { destruct (simple_body_dir _ _ _ _ _ _ _ _ Hd Hbody)
      as [->|(d1 & -> & Hne & Hren)].
    - exists d. split; [done|]. split; [done|].
      symmetry. apply insert_id. by apply folder_at_Some.
    - exists d1. split; [apply folder_at_insert|]. split; [|done].
      eapply Hstep; try done. left. }
  destruct (IH fs1 d1) as (d' & Hd' & HI' & Hfs'); try done.
  { intros d0 d2 j g Hin. apply Hstep. by right. }
  exists d'.
  destruct (simple_loop p rest fs1) as [[e|os] fs2 tr2];
    cbn [final] in *; (split; [done|]; split; [done|]);
    by rewrite Hfs', Hfs1, insert_insert_eq.
Qed.

(** Where the two scripts leave the file system: where their loops do. *)
Lemma rename_images_final (p : string) (start_number : Z) (dry_run : bool)
    (fs : filesystem) (d : dirmap) :
  folder_at fs p = Some d ->
  final (rename_images p start_number dry_run fs)
  = final (rename_loop p dry_run
             (enumerate (image_list IMAGE_EXTENSIONS d) start_number) 0 fs).
Proof.
  intros Hd. rewrite (rename_images_folder _ _ _ _ d) by done. cbv zeta.
  rewrite final_with_prefix.
  destruct (bool_decide (image_list IMAGE_EXTENSIONS d = [])) eqn:E.
  { apply bool_decide_eq_true in E. by rewrite E. }
  rewrite final_with_prefix.
  destruct (rename_loop_total p dry_run
              (enumerate (image_list IMAGE_EXTENSIONS d) start_number) 0 fs)
    as (os & fs1 & tr1 & -> & _).
  apply full_summary_result.
Qed.

Lemma rename_images_in_folder_final (p : string) (fs : filesystem) (d : dirmap) :
  folder_at fs p = Some d ->
  final (rename_images_in_folder p fs)
  = final (simple_loop p (enumerate (image_list image_extensions d) 1) fs).
Proof.
  intros Hd. rewrite (rename_images_in_folder_folder _ _ d) by done. cbv zeta.
  rewrite final_with_prefix.
  destruct (bool_decide (image_list image_extensions d = [])) eqn:E.
  { apply bool_decide_eq_true in E. by rewrite E. }
  rewrite final_with_prefix.
  destruct (simple_loop_total p (enumerate (image_list image_extensions d) 1) fs)
    as (os & fs1 & tr1 & -> & _).
  reflexivity.
Qed.

Lemma folder_at_None_bad (fs : filesystem) (p : string) :
  folder_at fs p = None -> fs !! p = None \/ fs !! p = Some NotDir.
Proof.
  unfold folder_at. destruct (fs !! p) as [[|?]|]; auto. discriminate.
Qed.

Lemma image_list_eligible (exts : list string) (d : dirmap) (f : string) :
  f ∈ image_list exts d -> eligible exts d f = true.
Proof.
  unfold image_list. rewrite sorted_elem_of, list_elem_of_In, filter_In.
  by intros [_ ?].
Qed.

Lemma enumerate_source {A} (l : list A) (start i : Z) (x : A) :
  (i, x) ∈ enumerate l start -> x ∈ l.
Proof. intros H. by apply elem_of_enumerate in H as [_ ?]. Qed.

(** X2.  An entry of the folder that is not an image file for a variant (a
    sub-directory, or a file without a recognised extension) is under the
    same name with the same content after a run of that variant, dry or
    live, with or without collisions and failures. *)
Theorem other_entries_are_kept (p : string) (start_number : Z) (dry_run : bool)
    (fs : filesystem) (d : dirmap) (n : string) (e : entry) :
  folder_at fs p = Some d ->
  d !! n = Some e ->
  (eligible IMAGE_EXTENSIONS d n = false ->
   exists d', folder_at (final (rename_images p start_number dry_run fs)) p = Some d'
              /\ d' !! n = Some e)
  /\ (eligible image_extensions d n = false ->
      exists d', folder_at (final (rename_images_in_folder p fs)) p = Some d'
                 /\ d' !! n = Some e).
Proof.
  intros Hd Hn.
  assert (Hstep : forall exts start d0 d1 i f,
             Forall well_formed_ext exts ->
             eligible exts d n = false ->
             (i, f) ∈ enumerate (image_list exts d) start ->
             d0 !! n = Some e -> f <> new_name i f ->
             os_rename d0 f (new_name i f) = Some d1 -> d1 !! n = Some e).
  { intros exts start d0 d1 i f Hexts Hnot Hin H0 Hne Hren.
    apply enumerate_source, image_list_eligible in Hin.
    pose proof Hin as Hel. apply eligible_spec in Hel as [_ Hext].
    assert (n <> f) by (intros ->; congruence).
    assert (n <> new_name i f).
    { intros ->. unfold eligible, has_extension in Hnot.
      rewrite (proj1 (new_name_fixed exts i f Hexts Hext)) in Hnot.
      rewrite Forall_forall in Hexts. rewrite (proj2 (Hexts _ Hext)) in Hnot.
      rewrite Hn, bool_decide_eq_true_2, andb_true_r in Hnot by done.
      destruct e as [x|]; [done|].
      unfold os_rename in Hren. rewrite H0 in Hren.
      destruct (rename_fault f (new_name i f)); [done|].
      destruct (d0 !! f) as [[?|]|]; done. }
    apply os_rename_Some in Hren as (e0 & _ & ->).
    by rewrite lookup_insert_ne, lookup_delete_ne. }
  split; intros Hnot.
  - rewrite (rename_images_final _ _ _ _ d) by done.
    destruct (rename_loop_invariant (fun d0 => d0 !! n = Some e) p dry_run
                (enumerate (image_list IMAGE_EXTENSIONS d) start_number) 0 fs d)
      as (d1 & Hd1 & Hn1 & _); try done; [|by exists d1].
    intros d0 d1 i f Hin H0 Hne _ Hren.
    by apply (Hstep IMAGE_EXTENSIONS start_number d0 d1 i f
                IMAGE_EXTENSIONS_well_formed).
  - rewrite (rename_images_in_folder_final _ _ d) by done.
    destruct (simple_loop_invariant (fun d0 => d0 !! n = Some e) p
                (enumerate (image_list image_extensions d) 1) fs d)
      as (d1 & Hd1 & Hn1 & _); try done; [|by exists d1].
    intros d0 d1 i f Hin H0 Hne Hren.
    by apply (Hstep image_extensions 1%Z d0 d1 i f image_extensions_well_formed).
Qed.

(** X3.  On a folder that holds regular files and sub-directories only (no
    symbolic link), the full variant never loses an entry: after a run, dry
    or live, the folder holds the same entries as before, each once,
    possibly under other names. *)
Theorem full_variant_keeps_every_entry (p : string) (start_number : Z)
    (dry_run : bool) (fs : filesystem) (d : dirmap) :
  folder_at fs p = Some d ->
  exists d', folder_at (final (rename_images p start_number dry_run fs)) p = Some d'
             /\ (map_to_list d').*2 ≡ₚ (map_to_list d).*2
             /\ size d' = size d.
Proof.
  intros Hd. rewrite (rename_images_final _ _ _ _ d) by done.
  destruct (rename_loop_invariant
              (fun d0 => (map_to_list d0).*2 ≡ₚ (map_to_list d).*2) p dry_run
              (enumerate (image_list IMAGE_EXTENSIONS d) start_number) 0 fs d)
    as (d1 & Hd1 & Hperm & _); try done.
  - intros d0 d1 i f _ H0 Hne Hfree Hren.
    apply os_rename_Some in Hren as (e0 & Hf & ->).
    rewrite map_to_list_insert by (by rewrite lookup_delete_ne).
    rewrite <- H0, <- (map_to_list_delete d0 f e0) by done.
    by rewrite !fmap_cons.
  - exists d1. split; [done|]. split; [done|].
    rewrite <- !length_map_to_list, <- !(length_fmap snd). by rewrite Hperm.
Qed.

(** ** Folders without image files *)

Lemma image_list_nil (exts : list string) (d : dirmap) :
  (forall n, eligible exts d n = false) -> image_list exts d = [].
Proof.
  intros Hnone. unfold image_list.
  assert (List.filter (eligible exts d) (iterdir_order d) = []) as ->; [|done].
  induction (iterdir_order d) as [|n l IH]; [done|].
  cbn. by rewrite Hnone.
Qed.

(** X4.  On a folder without any image file each script reports that it
    found none and stops there: it returns no outcome, prints that one
    line, calls no rename and leaves the file system as it was. *)
Theorem no_image_files_no_work (p : string) (start_number : Z) (dry_run : bool)
    (fs : filesystem) (d : dirmap) :
  folder_at fs p = Some d ->
  ((forall n, eligible IMAGE_EXTENSIONS d n = false) ->
   let r := rename_images p start_number dry_run fs in
   result r = inr [] /\ final r = fs /\ printed (trace r) = [MsgNoImages p]
   /\ List.filter is_rename_call (trace r) = [])
  /\ ((forall n, eligible image_extensions d n = false) ->
      let r := rename_images_in_folder p fs in
      result r = inr [] /\ final r = fs /\ printed (trace r) = [MsgNoImages p]
      /\ List.filter is_rename_call (trace r) = []).
Proof.
  intros Hd. split; intros Hnone; cbv zeta.
  - rewrite (rename_images_folder _ _ _ _ d) by done. cbv zeta.
    rewrite (image_list_nil _ _ Hnone). cbn [bool_decide decide_rel].
    rewrite bool_decide_eq_true_2 by done.
    cbn [with_prefix result final trace].
    rewrite printed_app, List.filter_app, printed_app, List.filter_app.
    rewrite printed_is_file_calls, no_rename_in_is_file_calls. done.
  - rewrite (rename_images_in_folder_folder _ _ d) by done. cbv zeta.
    rewrite (image_list_nil _ _ Hnone).
    rewrite bool_decide_eq_true_2 by done.
    cbn [with_prefix result final trace].
    rewrite printed_app, List.filter_app, printed_app, List.filter_app.
    rewrite printed_is_file_calls, no_rename_in_is_file_calls. done.
Qed.

(** ** Target names are unique and keep the extension *)

Lemma decode_zero_cons (s : string) : decode (String "0" s) = decode s.
Proof.
  unfold decode. cbn [NilEmpty.uint_of_string].
  destruct (NilEmpty.uint_of_string s); reflexivity.
Qed.

Lemma decode_zeros (k : nat) (s : string) : decode (zeros k +:+ s) = decode s.
Proof.
  induction k as [|k IH]; [reflexivity|].
  cbn [zeros]. change (String "0" (zeros k) +:+ s) with (String "0" (zeros k +:+ s)).
  by rewrite decode_zero_cons.
Qed.

Lemma to_uint_nonnil (n : N) : N.to_uint n <> Decimal.Nil.
Proof.
  destruct n as [|q]; [discriminate|]. apply DecimalPos.Unsigned.to_uint_nonnil.
Qed.

Lemma decode_digits (n : N) : decode (digits n) = Some n.
Proof.
  unfold decode, digits.
  assert (NilZero.string_of_uint (N.to_uint n)
          = NilEmpty.string_of_uint (N.to_uint n)) as ->.
  { pose proof (to_uint_nonnil n). by destruct (N.to_uint n). }
  rewrite NilEmpty.usu. cbn. by rewrite DecimalN.Unsigned.of_to.
Qed.

Lemma decode_zfill (w : nat) (n : N) : decode (zfill w (digits n)) = Some n.
Proof. unfold zfill. by rewrite decode_zeros, decode_digits. Qed.

Lemma decode_minus (s : string) : decode ("-" +:+ s) = None.
Proof.
  unfold decode. change ("-" +:+ s) with (String "-" s).
  cbn [NilEmpty.uint_of_string].
  destruct (NilEmpty.uint_of_string s); reflexivity.
Qed.

(** The format [04d] is one-to-one on the integers. *)
Lemma pad4_inj (i j : Z) : pad4 i = pad4 j -> i = j.
Proof.
  unfold pad4.
  destruct (i <? 0)%Z eqn:Hi, (j <? 0)%Z eqn:Hj;
    [apply Z.ltb_lt in Hi, Hj|apply Z.ltb_lt in Hi; apply Z.ltb_ge in Hj
    |apply Z.ltb_ge in Hi; apply Z.ltb_lt in Hj|apply Z.ltb_ge in Hi, Hj];
    intros H.
  - apply string_app_inj_l in H. apply (f_equal decode) in H.
    rewrite !decode_zfill in H. injection H as H. lia.
  - apply (f_equal decode) in H.
    rewrite decode_minus, decode_zfill in H. discriminate H.
  - apply (f_equal decode) in H.
    rewrite decode_minus, decode_zfill in H. discriminate H.
  - apply (f_equal decode) in H. rewrite !decode_zfill in H.
    injection H as H. lia.
Qed.

Lemma digits_string_dot_free (s : string) :
  is_Some (decode s) -> rfind_dot s = None.
Proof.
  unfold decode. induction s as [|a s IH]; [done|].
  cbn [NilEmpty.uint_of_string rfind_dot].
  destruct (NilEmpty.uint_of_string s) as [d|] eqn:Hs; [|by intros [? ?]].
  rewrite IH by (by eexists).
  destruct (uint_of_char a (Some d)) as [d'|] eqn:Ha; [|by intros [? ?]].
  intros _. apply uint_of_char_spec in Ha.
  destruct Ha as [[-> _]|[[-> _]|[[-> _]|[[-> _]|[[-> _]|[[-> _]|[[-> _]
                 |[[-> _]|[[-> _]|[-> _]]]]]]]]]]; reflexivity.
Qed.

Lemma pad4_dot_free (i : Z) : rfind_dot (pad4 i) = None.
Proof.
  unfold pad4. destruct (i <? 0)%Z.
  - change ("-" +:+ zfill 3 (digits (Z.abs_N i)))
      with (String "-" (zfill 3 (digits (Z.abs_N i)))).
    cbn [rfind_dot]. rewrite digits_string_dot_free; [reflexivity|].
    rewrite decode_zfill. by eexists.
  - apply digits_string_dot_free. rewrite decode_zfill. by eexists.
Qed.

Lemma substring_at_dot (s : string) (k : nat) :
  rfind_dot s = Some k ->
  exists r, String.substring k (String.length s - k) s = String "." r.
Proof.
  revert k. induction s as [|c s IH]; intros k; [done|].
  cbn [rfind_dot]. destruct (rfind_dot s) as [j|].
  - intros [= <-]. destruct (IH j eq_refl) as [r Hr]. exists r.
    cbn [String.length String.substring]. exact Hr.
  - destruct (Ascii.eqb c ".") eqn:Hc; [|done]. intros [= <-].
    apply Ascii.eqb_eq in Hc. subst c.
    cbn [String.length]. rewrite Nat.sub_0_r. cbn [String.substring].
    by eexists.
Qed.

(** A suffix is empty or begins with its dot, and so does its lower-case
    form. *)
Lemma lower_suffix_shape (name : string) :
  lower (suffix name) = "" \/ exists r, lower (suffix name) = String "." r.
Proof.
  unfold suffix. destruct (rfind_dot name) as [k|] eqn:Hk; [|by left].
  destruct ((0 <? k) && (k <? String.length name - 1))%nat; [|by left].
  destruct (substring_at_dot _ _ Hk) as [r ->]. right. by eexists.
Qed.

Lemma string_app_nil_l (s : string) : "" +:+ s = s.
Proof. reflexivity. Qed.

Lemma string_app_cons (c : ascii) (a s : string) :
  String c a +:+ s = String c (a +:+ s).
Proof. reflexivity. Qed.

Lemma dot_free_prefix_inj (a b s1 s2 : string) :
  rfind_dot a = None -> rfind_dot b = None ->
  (s1 = "" \/ exists r, s1 = String "." r) ->
  (s2 = "" \/ exists r, s2 = String "." r) ->
  a +:+ s1 = b +:+ s2 -> a = b.
Proof.
  assert (Hcons : forall c s, rfind_dot (String c s) = None ->
                              c <> "."%char /\ rfind_dot s = None).
  { intros c s. cbn [rfind_dot]. destruct (rfind_dot s); [done|].
    destruct (Ascii.eqb c ".") eqn:Hc; [done|].
    intros _. split; [|done]. by apply Ascii.eqb_neq. }
  revert b. induction a as [|c a IH]; intros [|c' b] Ha Hb H1 H2;
    rewrite ?string_app_nil_l, ?string_app_cons.
  - done.
  - intros ->. apply Hcons in Hb as [Hc _].
    destruct H1 as [?|[r [= ? _]]]; done.
  - intros <-. apply Hcons in Ha as [Hc _].
    destruct H2 as [?|[r [= ? _]]]; done.
  - intros [= -> H]. f_equal.
    apply Hcons in Ha as [_ Ha]. apply Hcons in Hb as [_ Hb]. eauto.
Qed.

Lemma new_name_inj (i j : Z) (f g : string) :
  new_name i f = new_name j g -> i = j.
Proof.
  unfold new_name. intros H. apply pad4_inj.
  eapply dot_free_prefix_inj; [apply pad4_dot_free|apply pad4_dot_free| | |exact H];
    apply lower_suffix_shape.
Qed.

Lemma targets_NoDup (l : list string) (start : Z) :
  NoDup (plan_of (enumerate l start)).*2.
Proof.
  revert start. induction l as [|f l IH]; intros start; [constructor|].
  cbn [enumerate plan_of map fmap list_fmap fst snd].
  constructor; [|apply IH].
  intros Hin. apply list_elem_of_fmap in Hin as ([s t] & Ht & Hin).
  apply list_elem_of_fmap in Hin as ([j g] & [= -> ->] & Hin).
  cbn [fst snd] in Ht. apply new_name_inj in Ht.
  apply elem_of_enumerate in Hin as [Hj _]. lia.
Qed.

(** The outcomes of a run are those of a plan on some list of files. *)
Lemma rename_images_planned (p : string) (start_number : Z) (dry_run : bool)
    (fs : filesystem) (os : list outcome) :
  result (rename_images p start_number dry_run fs) = inr os ->
  exists files, planned os = plan_of (enumerate files start_number).
Proof.
  destruct (folder_at fs p) as [d|] eqn:Hd.
  - rewrite (rename_images_folder _ _ _ _ d) by done. cbv zeta.
    rewrite result_with_prefix.
    destruct (bool_decide (image_list IMAGE_EXTENSIONS d = []));
      [intros [= <-]; by exists []|].
    rewrite result_with_prefix.
    destruct (rename_loop_total p dry_run
                (enumerate (image_list IMAGE_EXTENSIONS d) start_number) 0 fs)
      as (os' & fs1 & tr1 & -> & Hplan & _).
    rewrite (proj1 (full_summary_result _ _ _ _ _ _ _)). intros [= <-]. eauto.
  - rewrite (proj1 (bad_folder_runs p start_number dry_run fs
                      (folder_at_None_bad _ _ Hd))).
    intros [= <-]. by exists [].
Qed.

Lemma rename_images_in_folder_planned (p : string) (fs : filesystem)
    (os : list outcome) :
  result (rename_images_in_folder p fs) = inr os ->
  exists files, planned os = plan_of (enumerate files 1).
Proof.
  destruct (folder_at fs p) as [d|] eqn:Hd.
  - rewrite (rename_images_in_folder_folder _ _ d) by done. cbv zeta.
    rewrite result_with_prefix.
    destruct (bool_decide (image_list image_extensions d = []));
      [intros [= <-]; by exists []|].
    rewrite result_with_prefix.
    destruct (simple_loop_total p (enumerate (image_list image_extensions d) 1) fs)
      as (os' & fs1 & tr1 & -> & Hplan).
    intros [= <-]. eauto.
  - rewrite (proj2 (bad_folder_runs p 1 false fs (folder_at_None_bad _ _ Hd))).
    destruct (bool_decide _); [done|]. intros [= <-]. by exists [].
Qed.

(** X8.  Target names are unique: two different sequence numbers never give
    the same target name, whatever the integers and the file names, so
    within one run of either script no two entries have the same target. *)
Theorem target_names_are_unique (p : string) (start_number : Z)
    (dry_run : bool) (fs : filesystem) :
  (forall i j f g, new_name i f = new_name j g -> i = j)
  /\ (forall os, result (rename_images p start_number dry_run fs) = inr os ->
                 NoDup (map o_target os))
  /\ (forall os, result (rename_images_in_folder p fs) = inr os ->
                 NoDup (map o_target os)).
Proof.
  assert (Htargets : forall os its, planned os = plan_of its ->
                                    map o_target os = (plan_of its).*2).
  { intros os its H. rewrite <- H. unfold planned.
    rewrite <- list_fmap_compose. reflexivity. }
  split; [apply new_name_inj|]. split; intros os Hres.
  - apply rename_images_planned in Hres as [files Hplan].
    rewrite (Htargets _ _ Hplan). apply targets_NoDup.
  - apply rename_images_in_folder_planned in Hres as [files Hplan].
    rewrite (Htargets _ _ Hplan). apply targets_NoDup.
Qed.

Lemma image_extensions_subset (e : string) :
  e ∈ image_extensions -> e ∈ IMAGE_EXTENSIONS.
Proof.
  revert e. apply Forall_forall. unfold image_extensions.
  repeat first
    [ apply Forall_nil; done
    | apply Forall_cons; split; [by apply (bool_decide_unpack _)|] ].
Qed.

(** X9.  Renaming keeps the extension, in lower case: the suffix of the
    target of a file with a recognised extension is the file's lower-cased
    suffix, so the target has a recognised extension too and is its own
    target for the same number.  Every extension the minimal variant
    recognises is recognised by the full variant. *)
Theorem extension_is_kept_in_lower_case (i : Z) (f : string) :
  (has_extension IMAGE_EXTENSIONS f = true ->
   suffix (new_name i f) = lower (suffix f)
   /\ has_extension IMAGE_EXTENSIONS (new_name i f) = true
   /\ new_name i (new_name i f) = new_name i f)
  /\ (has_extension image_extensions f = true ->
      suffix (new_name i f) = lower (suffix f)
      /\ has_extension image_extensions (new_name i f) = true
      /\ new_name i (new_name i f) = new_name i f
      /\ has_extension IMAGE_EXTENSIONS f = true).
Proof.
  assert (H : forall exts, Forall well_formed_ext exts ->
                has_extension exts f = true ->
                suffix (new_name i f) = lower (suffix f)
                /\ has_extension exts (new_name i f) = true
                /\ new_name i (new_name i f) = new_name i f).
  { intros exts Hexts Hf. unfold has_extension in *.
    apply bool_decide_eq_true in Hf.
    destruct (new_name_fixed exts i f Hexts Hf) as [Hs Hfix].
    split; [done|]. split; [|done].
    apply bool_decide_eq_true. rewrite Hs.
    rewrite Forall_forall in Hexts. by rewrite (proj2 (Hexts _ Hf)). }
  split; intros Hf.
  - by apply H; [apply IMAGE_EXTENSIONS_well_formed|].
  - destruct (H image_extensions image_extensions_well_formed Hf) as (? & ? & ?).
    repeat split; try done.
    unfold has_extension in *. apply bool_decide_eq_true.
    apply bool_decide_eq_true in Hf. by apply image_extensions_subset.
Qed.

(** ** What a run without collision or failure achieves *)


Lemma planned_elem_of (os : list outcome) (its : list (Z * string)) (o : outcome) :
  planned os = plan_of its -> o ∈ os ->
  exists i, (i, o_source o) ∈ its /\ o_target o = new_name i (o_source o).
Proof.
  intros Hplan Ho.
  assert (Hin : (o_source o, o_target o) ∈ planned os).
  { unfold planned. apply list_elem_of_In, in_map_iff. exists o.
    split; [done|]. by apply list_elem_of_In. }
  rewrite Hplan in Hin. unfold plan_of in Hin.
  apply list_elem_of_In, in_map_iff in Hin as ([i f] & [= <- Ht] & Hin).
  exists i. split; [by apply list_elem_of_In|done].
Qed.

Lemma image_list_sources (exts : list string) (d : dirmap) (start : Z) :
  NoDup (enumerate (image_list exts d) start).*2
  /\ forall f, f ∈ (enumerate (image_list exts d) start).*2 -> is_Some (d !! f).
Proof.
  rewrite enumerate_snd. split.
  - apply StronglySorted_lt_NoDup, image_list_sorted.
  - intros f Hf. apply image_list_eligible, eligible_spec in Hf as [[x ->] _].
    eauto.
Qed.


(** ** The preview of a dry run *)

Lemma rename_loop_dry_outcomes (p : string) (its : list (Z * string)) (c : nat)
    (fs : filesystem) (d : dirmap) :
  folder_at fs p = Some d ->
  exists os tr,
    rename_loop p true its c fs = Ran (inr (os, c)) fs tr
    /\ Forall (fun o =>
                 o = if decide (o_source o = o_target o)
                     then AlreadyNamed (o_source o)
                     else if decide (is_Some (d !! o_target o))
                          then Collision (o_source o) (o_target o)
                          else WouldRename (o_source o) (o_target o)) os.
Proof.
  intros Hd. revert c. induction its as [|[i f] rest IH]; intros c.
  { exists [], []. split; [done|constructor]. }
  destruct (IH c) as (os & tr & Hrest & Hall).
  assert (exists o tr1,
             rename_body p true (i, f) c fs = Ran (inr (o, c)) fs tr1
             /\ o = if decide (o_source o = o_target o)
                    then AlreadyNamed (o_source o)
                    else if decide (is_Some (d !! o_target o))
                         then Collision (o_source o) (o_target o)
                         else WouldRename (o_source o) (o_target o))
    as (o & tr1 & Hbody & Ho).
  { rewrite rename_body_run. cbv zeta. rewrite Hd.
    destruct (String.eqb f (new_name i f)) eqn:E.
    - apply String.eqb_eq in E. eexists _, _. split; [reflexivity|].
      cbn [o_source o_target]. by rewrite decide_True.
    - apply String.eqb_neq in E.
      destruct (bool_decide (is_Some (d !! new_name i f))) eqn:Hex.
      + apply bool_decide_eq_true in Hex. eexists _, _. split; [reflexivity|].
        cbn [o_source o_target]. by rewrite decide_False, decide_True.
      + apply bool_decide_eq_false in Hex. eexists _, _. split; [reflexivity|].
        cbn [o_source o_target]. by rewrite !decide_False. }
  erewrite rename_loop_cons by exact Hbody. rewrite Hrest.
  eexists _, _. split; [reflexivity|]. by constructor.
Qed.

(** X11.  A dry run classifies every entry against the folder as it found
    it: an entry is an already-named skip when its name is its target, a
    collision skip when its target names an entry of that folder, and a
    would-rename otherwise; renames the live run would have made before
    reaching the entry are not taken into account. *)
Theorem dry_run_previews_the_snapshot (p : string) (start_number : Z)
    (fs : filesystem) (d : dirmap) (os : list outcome) :
  folder_at fs p = Some d ->
  result (rename_images p start_number true fs) = inr os ->
  Forall (fun o =>
            o = if decide (o_source o = o_target o)
                then AlreadyNamed (o_source o)
                else if decide (is_Some (d !! o_target o))
                     then Collision (o_source o) (o_target o)
                     else WouldRename (o_source o) (o_target o)) os.
Proof.
  intros Hd. rewrite (rename_images_folder _ _ _ _ d) by done. cbv zeta.
  rewrite result_with_prefix.
  destruct (bool_decide (image_list IMAGE_EXTENSIONS d = []));
    [intros [= <-]; constructor|].
  rewrite result_with_prefix.
  destruct (rename_loop_dry_outcomes p
              (enumerate (image_list IMAGE_EXTENSIONS d) start_number) 0 fs d Hd)
    as (os' & tr & -> & Hall).
  rewrite (proj1 (full_summary_result _ _ _ _ _ _ _)). by intros [= <-].
Qed.

(** ** A folder already in sequence *)

Lemma image_list_unique (exts : list string) (d : dirmap) (files : list string) :
  StronglySorted path_lt files ->
  (forall n, n ∈ files <-> eligible exts d n = true) ->
  image_list exts d = files.
Proof.
  intros Hsorted Hmem. apply (Sorted_unique path_le).
  - apply sorted_Sorted.
  - by apply StronglySorted_Sorted, StronglySorted_lt_le.
  - apply NoDup_Permutation.
    + apply StronglySorted_lt_NoDup, image_list_sorted.
    + by apply StronglySorted_lt_NoDup.
    + intros n. by rewrite image_list_elem_of, Hmem.
Qed.

Lemma enumerate_lookup_elem {A} (l : list A) (start i : Z) (x : A) :
  (i, x) ∈ enumerate l start ->
  exists k, l !! k = Some x /\ i = (start + Z.of_nat k)%Z.
Proof.
  revert start. induction l as [|y l IH]; intros start Hin.
  { by apply elem_of_nil in Hin. }
  cbn [enumerate] in Hin. apply elem_of_cons in Hin as [[= -> ->]|Hin].
  - exists 0%nat. split; [done|lia].
  - destruct (IH _ Hin) as (k & Hk & ->). exists (S k). split; [done|lia].
Qed.

(** X12.  A folder whose image files, in name order, already bear their
    target names is left alone: every entry is an already-named skip, no
    rename is called and the file system is unchanged, in both variants. *)
Theorem folder_in_sequence_is_left_alone (p : string) (start_number : Z)
    (fs : filesystem) (d : dirmap) :
  folder_at fs p = Some d ->
  (forall files,
     StronglySorted path_lt files ->
     (forall n, n ∈ files <-> eligible IMAGE_EXTENSIONS d n = true) ->
     (forall k f, files !! k = Some f ->
                  f = new_name (start_number + Z.of_nat k) f) ->
     let r := rename_images p start_number false fs in
     result r = inr (map AlreadyNamed files) /\ final r = fs
     /\ List.filter is_rename_call (trace r) = [])
  /\ (forall files,
        StronglySorted path_lt files ->
        (forall n, n ∈ files <-> eligible image_extensions d n = true) ->
        (forall k f, files !! k = Some f -> f = new_name (1 + Z.of_nat k) f) ->
        let r := rename_images_in_folder p fs in
        result r = inr (map AlreadyNamed files) /\ final r = fs
        /\ List.filter is_rename_call (trace r) = []).
Proof.
  intros Hd.
  assert (Hmap : forall (l : list string) start,
             map (fun it : Z * string => AlreadyNamed it.2) (enumerate l start)
             = map AlreadyNamed l).
  { intros l start. rewrite <- (enumerate_snd l start) at 2.
    by rewrite <- list_fmap_compose. }
  split; intros files Hsorted Hmem Hnamed; cbv zeta.
  - rewrite (rename_images_folder _ _ _ _ d) by done. cbv zeta.
    rewrite (image_list_unique _ _ _ Hsorted Hmem).
    rewrite result_with_prefix, final_with_prefix, trace_with_prefix.
    rewrite List.filter_app, List.filter_app, no_rename_in_is_file_calls.
    destruct (bool_decide (files = [])) eqn:E.
    { apply bool_decide_eq_true in E. by rewrite E. }
    rewrite rename_loop_all_named; cycle 1.
    { intros i f Hin. apply enumerate_lookup_elem in Hin as (k & Hk & ->).
      by apply Hnamed. }
    cbn [full_summary negb with_prefix result final trace].
    rewrite Hmap, !List.filter_app, no_rename_in_skips. done.
  - rewrite (rename_images_in_folder_folder _ _ d) by done. cbv zeta.
    rewrite (image_list_unique _ _ _ Hsorted Hmem).
    rewrite result_with_prefix, final_with_prefix, trace_with_prefix.
    rewrite List.filter_app, List.filter_app, no_rename_in_is_file_calls.
    destruct (bool_decide (files = [])) eqn:E.
    { apply bool_decide_eq_true in E. by rewrite E. }
    rewrite simple_loop_all_named; cycle 1.
    { intros i f Hin. apply enumerate_lookup_elem in Hin as (k & Hk & ->).
      by apply Hnamed. }
    cbn [simple_summary with_prefix result final trace].
    rewrite Hmap. done.
Qed.

(** ** Where every file is after a run of the full variant *)

Lemma planned_of_loop_source (p : string) (dry_run : bool)
    (its : list (Z * string)) (c : nat) (fs : filesystem) os c' fs' tr :
  rename_loop p dry_run its c fs = Ran (inr (os, c')) fs' tr ->
  forall o, o ∈ os -> o_source o ∈ its.*2.
Proof.
  intros Hrun o Ho.
  destruct (rename_loop_total p dry_run its c fs) as (os' & fs1 & tr1 & Hrun' & Hplan & _).
  rewrite Hrun in Hrun'. injection Hrun' as <- _ _ _.
  destruct (planned_elem_of _ _ _ Hplan Ho) as (i & Hin & _).
  apply list_elem_of_fmap. by exists (i, o_source o).
Qed.

Lemma rename_loop_places (p : string) (dry_run : bool)
    (its : list (Z * string)) (c : nat) (fs : filesystem) (d : dirmap)
    os c' fs' tr :
  folder_at fs p = Some d ->
  NoDup its.*2 ->
  (forall f, f ∈ its.*2 -> is_Some (d !! f)) ->
  rename_loop p dry_run its c fs = Ran (inr (os, c')) fs' tr ->
  exists d', folder_at fs' p = Some d'
             /\ (forall o, o ∈ os -> d' !! name_after o = d !! o_source o)
             /\ (forall n, n ∉ its.*2 -> is_Some (d !! n) -> d' !! n = d !! n).
Proof.
  revert c fs d os c' fs' tr.
  induction its as [|[i f] rest IH]; intros c fs d os c' fs' tr Hd Hnd Hin Hrun.
  { cbn in Hrun. injection Hrun as <- <- <- <-. exists d.
    split; [done|]. split; [|done]. intros o Ho. by apply elem_of_nil in Ho. }
  cbn [fmap list_fmap fst snd] in *.
  apply NoDup_cons in Hnd as [Hnotin Hnd].
  destruct (rename_body_total p dry_run i f c fs)
    as (o & c1 & fs1 & tr1 & Hbody & _ & Hsrc & _).
  erewrite rename_loop_cons in Hrun by exact Hbody.
  destruct (rename_loop p dry_run rest c1 fs1) as [[e|[os2 c2]] fs2 tr2] eqn:Hrest;
    [discriminate|].
  injection Hrun as <- <- <- <-.
  assert (exists d1, folder_at fs1 p = Some d1
                     /\ d1 !! name_after o = d !! f
                     /\ (forall n, n <> f -> is_Some (d !! n) -> d1 !! n = d !! n))
    as (d1 & Hd1 & Ho & Hframe).
  { pose proof Hbody as Hbody'.
    rewrite rename_body_run in Hbody'. cbv zeta in Hbody'. rewrite Hd in Hbody'.
    destruct (String.eqb f (new_name i f));
      [injection Hbody' as <- <- <- <-; by exists d|].
    destruct (bool_decide (is_Some (d !! new_name i f))) eqn:Hex;
      [injection Hbody' as <- <- <- <-; by exists d|].
    apply bool_decide_eq_false in Hex.
    destruct dry_run; [injection Hbody' as <- <- <- <-; by exists d|].
    cbn [mbind option_bind] in Hbody'.
    destruct (os_rename d f (new_name i f)) as [d1|] eqn:Hren;
      [|injection Hbody' as <- <- <- <-; by exists d].
    injection Hbody' as <- <- <- <-.
    apply os_rename_Some in Hren as (e0 & Hf & ->).
    eexists. split; [apply folder_at_insert|]. cbn [name_after]. split.
    - by rewrite lookup_insert_eq.
    - intros n Hn Hsome.
      assert (n <> new_name i f) by (by intros ->).
      by rewrite lookup_insert_ne, lookup_delete_ne. }
  assert (Hrest_ne : forall g, g ∈ rest.*2 -> g <> f) by (by intros g Hg ->).
  assert (Hin1 : forall g, g ∈ rest.*2 -> is_Some (d1 !! g)).
  { intros g Hg. rewrite Hframe; [|by apply Hrest_ne|]; apply Hin; by right. }
  destruct (IH _ _ d1 _ _ _ _ Hd1 Hnd Hin1 Hrest) as (d' & Hd' & Hplaces & Hkeep).
  exists d'. split; [done|]. split.
  - intros o' [->|Ho']%elem_of_cons.
    + rewrite Hsrc, <- Ho. apply Hkeep.
      * intros Hg.
        assert (Hsome : is_Some (d1 !! name_after o)).
        { rewrite Ho. apply Hin. by left. }
        pose proof (Hin _ (proj2 (elem_of_cons _ _ _) (or_intror Hg))) as Hsome'.
        destruct o; cbn [name_after o_source] in *; subst;
          try (by apply Hrest_ne in Hg).
        pose proof Hbody as Hbody'.
        rewrite rename_body_run in Hbody'. cbv zeta in Hbody'. rewrite Hd in Hbody'.
        destruct (String.eqb f (new_name i f)); [done|].
        destruct (bool_decide (is_Some (d !! new_name i f))) eqn:Hex; [done|].
        apply bool_decide_eq_false in Hex.
        destruct dry_run; [done|]. cbn [mbind option_bind] in Hbody'.
        destruct (os_rename d f (new_name i f)); [|done].
        injection Hbody' as <- _ _ _. done.
      * rewrite Ho. apply Hin. by left.
    + rewrite (Hplaces _ Ho').
      pose proof (planned_of_loop_source p dry_run rest c1 fs1 _ _ _ _ Hrest o' Ho')
        as Hg.
      apply Hframe; [by apply Hrest_ne|]. apply Hin. by right.
  - intros n Hn Hsome.
    assert (n <> f) by (intros ->; apply Hn; by left).
    rewrite Hkeep.
    + by apply Hframe.
    + intros ?. apply Hn. by right.
    + by rewrite Hframe.
Qed.

(** X13.  On a folder that holds regular files and sub-directories only (no
    symbolic link), after any run of the full variant that returns, every
    image file is in the folder with its content, under its target name
    when the run renamed it and under its own name when it was skipped,
    shown by a dry run or failed; and every other entry of the folder is
    where it was. *)
Theorem full_variant_places_every_file (p : string) (start_number : Z)
    (dry_run : bool) (fs : filesystem) (d : dirmap) (os : list outcome) :
  folder_at fs p = Some d ->
  result (rename_images p start_number dry_run fs) = inr os ->
  exists d',
    folder_at (final (rename_images p start_number dry_run fs)) p = Some d'
    /\ (forall o, o ∈ os ->
                  is_file_entry (d !! o_source o) = true
                  /\ d' !! name_after o = d !! o_source o)
    /\ (forall n, is_Some (d !! n) -> n ∉ map o_source os -> d' !! n = d !! n).
Proof.
  intros Hd. rewrite (rename_images_final _ _ _ _ d) by done.
  rewrite (rename_images_folder _ _ _ _ d) by done. cbv zeta.
  rewrite result_with_prefix.
  destruct (bool_decide (image_list IMAGE_EXTENSIONS d = [])) eqn:E.
  { apply bool_decide_eq_true in E. rewrite E. intros [= <-].
    exists d. split; [done|]. split; [|done].
    intros o Ho. by apply elem_of_nil in Ho. }
  rewrite result_with_prefix.
  destruct (rename_loop_total p dry_run
              (enumerate (image_list IMAGE_EXTENSIONS d) start_number) 0 fs)
    as (os' & fs1 & tr1 & Hrun & Hplan & _).
  rewrite Hrun. rewrite (proj1 (full_summary_result _ _ _ _ _ _ _)).
  cbn [final]. intros [= <-].
  destruct (image_list_sources IMAGE_EXTENSIONS d start_number) as [Hnd Hsome].
  destruct (rename_loop_places _ _ _ _ _ _ _ _ _ _ Hd Hnd Hsome Hrun)
    as (d' & Hd' & Hplaces & Hkeep).
  assert (Hsources : map o_source os'
                     = (enumerate (image_list IMAGE_EXTENSIONS d) start_number).*2).
  { apply (f_equal (map fst)) in Hplan. unfold planned, plan_of in Hplan.
    rewrite !map_map in Hplan. exact Hplan. }
  exists d'. split; [done|]. split.
  - intros o Ho. split; [|by apply Hplaces].
    assert (Hin : o_source o ∈ map o_source os').
    { apply list_elem_of_In, in_map, list_elem_of_In, Ho. }
    rewrite Hsources, enumerate_snd in Hin.
    apply image_list_eligible in Hin. unfold eligible in Hin.
    by apply andb_true_iff in Hin as [? _].
  - intros n Hn Hnot. apply Hkeep; [|done]. by rewrite <- Hsources.
Qed.

(** ** The minimal variant creates nothing *)

(** X15.  The minimal variant may replace entries but it never invents or
    duplicates one: the entries of the folder after a run are entries it
    held before, each at most as often, so the folder never grows. *)
Theorem simple_variant_creates_nothing (p : string) (fs : filesystem) (d : dirmap) :
  folder_at fs p = Some d ->
  exists d', folder_at (final (rename_images_in_folder p fs)) p = Some d'
             /\ (map_to_list d').*2 ⊆+ (map_to_list d).*2
             /\ size d' <= size d.
Proof.
  intros Hd. rewrite (rename_images_in_folder_final _ _ d) by done.
  destruct (simple_loop_invariant
              (fun d0 => (map_to_list d0).*2 ⊆+ (map_to_list d).*2) p
              (enumerate (image_list image_extensions d) 1) fs d)
    as (d1 & Hd1 & Hsub & _); try done.
  - intros d0 d1 i f _ H0 Hne Hren.
    apply os_rename_Some in Hren as (e0 & Hf & ->).
    etrans; [|exact H0].
    rewrite <- (map_to_list_delete d0 f e0) by done. rewrite fmap_cons. cbn [snd].
    destruct (delete f d0 !! new_name i f) as [e1|] eqn:Ht.
    + rewrite <- (insert_delete_eq (delete f d0)).
      rewrite map_to_list_insert by apply lookup_delete_eq.
      rewrite <- (map_to_list_delete (delete f d0) (new_name i f) e1) by done.
      rewrite !fmap_cons. cbn [snd].
      apply submseteq_skip, submseteq_cons. done.
    + rewrite map_to_list_insert by done. by rewrite fmap_cons.
  - exists d1. split; [done|]. split; [done|].
    rewrite <- !length_map_to_list, <- !(length_fmap snd).
    by apply submseteq_length.
Qed.

End Renamer.

(** ** The order of the directory listing *)

Lemma list_filter_Permutation {A} (f : A -> bool) (l1 l2 : list A) :
  l1 ≡ₚ l2 -> List.filter f l1 ≡ₚ List.filter f l2.
Proof.
  induction 1 as [|x l1 l2 _ IH|x y l|l1 l2 l3 _ IH1 _ IH2]; cbn.
  - done.
  - destruct (f x); [by constructor|done].
  - destruct (f x), (f y); try done. apply perm_swap.
  - by etrans.
Qed.

Lemma image_list_order_independent (it1 it2 : dirmap -> list string)
    (exts : list string) (d : dirmap) :
  it1 d ≡ₚ it2 d -> image_list it1 exts d = image_list it2 exts d.
Proof.
  intros H. unfold image_list. by apply sorted_order_independent, list_filter_Permutation.
Qed.

(** C9.  Two operating systems that yield the entries of every directory
    in different orders lead each script to the same result (the same
    outcomes for the same planned entries, in the same order), the same
    file system, the same printed lines and the same rename calls. *)
Theorem listing_order_is_irrelevant (it1 it2 : dirmap -> list string)
    (fault : string -> string -> bool) (p : string) (start_number : Z)
    (dry_run : bool) (fs : filesystem) :
  (forall d, it1 d ≡ₚ it2 d) ->
  (let r1 := rename_images it1 fault p start_number dry_run fs in
   let r2 := rename_images it2 fault p start_number dry_run fs in
   result r1 = result r2 /\ final r1 = final r2
   /\ printed (trace r1) = printed (trace r2)
   /\ List.filter is_rename_call (trace r1) = List.filter is_rename_call (trace r2))
  /\ (let r1 := rename_images_in_folder it1 fault p fs in
      let r2 := rename_images_in_folder it2 fault p fs in
      result r1 = result r2 /\ final r1 = final r2
      /\ printed (trace r1) = printed (trace r2)
      /\ List.filter is_rename_call (trace r1) = List.filter is_rename_call (trace r2)).
Proof.
  intros Hperm. cbv zeta.
  destruct (folder_at fs p) as [d|] eqn:Hd.
  - rewrite !(rename_images_folder _ _ _ _ _ _ d) by done.
    rewrite !(rename_images_in_folder_folder _ _ _ _ d) by done. cbv zeta.
    rewrite !(image_list_order_independent it1 it2) by done.
    rewrite !result_with_prefix, !final_with_prefix, !trace_with_prefix.
    rewrite !printed_app, !List.filter_app.
    rewrite !printed_is_file_calls, !no_rename_in_is_file_calls.
    repeat split.
  - assert (Hp : fs !! p = None \/ fs !! p = Some NotDir).
    { unfold folder_at in Hd. destruct (fs !! p) as [[|?]|]; auto. discriminate. }
    destruct (bad_folder_runs it1 fault p start_number dry_run fs Hp) as [-> ->].
    destruct (bad_folder_runs it2 fault p start_number dry_run fs Hp) as [-> ->].
    repeat split.
Qed.

(** ** The concrete operating system *)

Lemma listing_order_complete (d : dirmap) :
  NoDup (listing_order d) /\ forall n, n ∈ listing_order d <-> is_Some (d !! n).
Proof.
  unfold listing_order. split; [apply NoDup_fst_map_to_list|].
  intros n. rewrite list_elem_of_fmap. split.
  - intros ([n' e] & -> & H). apply elem_of_map_to_list in H. cbn. eauto.
  - intros [e He]. exists (n, e). split; [done|]. by apply elem_of_map_to_list.
Qed.

Lemma reversed_order_permutation (d : dirmap) : listing_order d ≡ₚ reversed_order d.
Proof. unfold reversed_order. by rewrite reverse_Permutation. Qed.

(** ** Runs on concrete folders *)

(** Three matching files, one other file, and
    [--start-number 100]. *)
Example start_number_100 :
  planned_of_result
    (result (rename_images listing_order no_fault "/photos" 100 false
               (fs_of "/photos" [("c.PNG", EFile 1); ("a.jpg", EFile 2);
                                 ("b.Jpeg", EFile 3); ("notes.txt", EFile 4)])))
  = [("a.jpg", "0100.jpg"); ("b.Jpeg", "0101.jpeg"); ("c.PNG", "0102.png")].
Proof. vm_compute. reflexivity. Qed.

(** C5.  On a folder holding [0.jpg] and [0001.jpg], the dry run warns that
    the target [0001.jpg] of [0.jpg] exists and skips it, shows one rename,
    and then reports "Would rename 2 files": the count of line 100 takes in
    every entry that is not already named, the collision skips included. *)
Theorem dry_run_total_counts_collision_skips :
  let fs := fs_of "/photos" [("0.jpg", EFile 1); ("0001.jpg", EFile 2)] in
  let r := rename_images listing_order no_fault "/photos" 1 true fs in
  result r = inr [Collision "0.jpg" "0001.jpg"; WouldRename "0001.jpg" "0002.jpg"]
  /\ printed (trace r)
     = [MsgFound 2; MsgDryRunHeader; MsgTargetExists "0001.jpg" "0.jpg";
        MsgArrow "0001.jpg" "0002.jpg"; MsgWouldRenameTotal 2].
Proof. vm_compute. split; reflexivity. Qed.

(** C2 fails for the minimal variant: it has no existence check, so on a
    folder holding [0.jpg] and [0001.jpg] it renames [0.jpg] onto the
    existing [0001.jpg], whose content is lost, and goes on. *)
Lemma simple_variant_replaces_existing_target :
  let d := dir_of [("0.jpg", EFile 1); ("0001.jpg", EFile 2)] in
  let r := rename_images_in_folder listing_order no_fault "/photos"
             {[ "/photos" := Folder d ]} in
  d !! new_name 1 "0.jpg" = Some (EFile 2)
  /\ result r = inr [Renamed "0.jpg" "0001.jpg"; Renamed "0001.jpg" "0002.jpg"]
  /\ entries_at (final r) "/photos" = Some [("0002.jpg", EFile 1)].
Proof. vm_compute. repeat split; reflexivity. Qed.

(** C3 fails as stated: on a folder holding [0.jpg] and [0001.jpg] the first
    run of the full variant skips [0.jpg] for a collision and renames
    [0001.jpg] to [0002.jpg]; the second run then renames [0.jpg] to
    [0001.jpg], so it is not a no-op. *)
Lemma second_run_after_collision_renames :
  let fs := fs_of "/photos" [("0.jpg", EFile 1); ("0001.jpg", EFile 2)] in
  let first := rename_images listing_order no_fault "/photos" 1 false fs in
  let second := rename_images listing_order no_fault "/photos" 1 false (final first) in
  result first = inr [Collision "0.jpg" "0001.jpg"; Renamed "0001.jpg" "0002.jpg"]
  /\ result second = inr [Renamed "0.jpg" "0001.jpg"; AlreadyNamed "0002.jpg"]
  /\ entries_at (final first) "/photos"
     = Some [("0.jpg", EFile 1); ("0002.jpg", EFile 2)]
  /\ entries_at (final second) "/photos"
     = Some [("0001.jpg", EFile 1); ("0002.jpg", EFile 2)]
  /\ final second <> final first.
Proof.
  cbv zeta. split; [vm_compute; reflexivity|]. split; [vm_compute; reflexivity|].
  split; [vm_compute; reflexivity|]. split; [vm_compute; reflexivity|].
  intros H. apply (f_equal (fun fs => entries_at fs "/photos")) in H.
  vm_compute in H. discriminate H.
Qed.

(** C6 fails as stated: no summary reflects a failure.  On a folder of five
    image files, with the rename of the second one refused by the OS, the
    full variant prints the error line of that entry, renames the other
    four, and ends with "Successfully renamed 4 files": the very line it
    ends with on a folder of five files where nothing fails and the first
    one is already named.  The minimal variant ends with "Done!", as it
    does when no rename is refused.  No printed line counts a failed
    entry. *)
Lemma summary_holds_no_failure_count :
  let fs := at_photos example_five in
  let failing := rename_images listing_order (fault_on "b.jpg") "/photos" 1 false fs in
  let skipping :=
    rename_images listing_order no_fault "/photos" 1 false
      (fs_of "/photos" [("0001.jpg", EFile 1); ("b.jpg", EFile 2); ("c.jpg", EFile 3);
                        ("d.jpg", EFile 4); ("e.jpg", EFile 5)]) in
  let failing' := rename_images_in_folder listing_order (fault_on "b.jpg") "/photos" fs in
  let clean' := rename_images_in_folder listing_order no_fault "/photos" fs in
  (result failing
   = inr [Renamed "a.jpg" "0001.jpg"; Failed "b.jpg" "0002.jpg";
          Renamed "c.jpg" "0003.jpg"; Renamed "d.jpg" "0004.jpg";
          Renamed "e.jpg" "0005.jpg"]
   /\ printed (trace failing)
      = [MsgFound 5; MsgRenamingHeader; MsgArrow "a.jpg" "0001.jpg";
         MsgErrorRenaming "b.jpg"; MsgArrow "c.jpg" "0003.jpg";
         MsgArrow "d.jpg" "0004.jpg"; MsgArrow "e.jpg" "0005.jpg";
         MsgRenamedTotal 4]
   /\ result skipping
      = inr [AlreadyNamed "0001.jpg"; Renamed "b.jpg" "0002.jpg";
             Renamed "c.jpg" "0003.jpg"; Renamed "d.jpg" "0004.jpg";
             Renamed "e.jpg" "0005.jpg"]
   /\ last (printed (trace skipping)) = last (printed (trace failing)))
  /\ (result failing'
      = inr [Renamed "a.jpg" "0001.jpg"; Failed "b.jpg" "0002.jpg";
             Renamed "c.jpg" "0003.jpg"; Renamed "d.jpg" "0004.jpg";
             Renamed "e.jpg" "0005.jpg"]
      /\ printed (trace failing')
         = [MsgFound 5; MsgRenamingHeader; MsgArrow "a.jpg" "0001.jpg";
            MsgErrorRenaming "b.jpg"; MsgArrow "c.jpg" "0003.jpg";
            MsgArrow "d.jpg" "0004.jpg"; MsgArrow "e.jpg" "0005.jpg"; MsgDone]
      /\ result clean'
         = inr [Renamed "a.jpg" "0001.jpg"; Renamed "b.jpg" "0002.jpg";
                Renamed "c.jpg" "0003.jpg"; Renamed "d.jpg" "0004.jpg";
                Renamed "e.jpg" "0005.jpg"]
      /\ last (printed (trace clean')) = last (printed (trace failing'))).
Proof. vm_compute. repeat split; reflexivity. Qed.

(** C10 fails as stated for the full variant: on a folder holding
    [0001.JPG] and [0001.jpg], the file [0001.JPG] comes first and carries
    its sequence number, its target [0001.jpg] exists, and the entry is
    skipped for a collision: it is not renamed and keeps its upper-case
    suffix. *)
Lemma upper_case_file_is_skipped_on_collision :
  let fs := fs_of "/photos" [("0001.JPG", EFile 1); ("0001.jpg", EFile 2)] in
  let r := rename_images listing_order no_fault "/photos" 1 false fs in
  "0001.JPG" = pad4 1 +:+ ".JPG"
  /\ new_name 1 "0001.JPG" = "0001.jpg"
  /\ result r = inr [Collision "0001.JPG" "0001.jpg"; Renamed "0001.jpg" "0002.jpg"]
  /\ printed (trace r)
     = [MsgFound 2; MsgRenamingHeader; MsgTargetExists "0001.jpg" "0001.JPG";
        MsgArrow "0001.jpg" "0002.jpg"; MsgRenamedTotal 1]
  /\ entries_at (final r) "/photos"
     = Some [("0001.JPG", EFile 1); ("0002.jpg", EFile 2)].
Proof. vm_compute. repeat split; reflexivity. Qed.

(** ** The theorems at concrete inputs *)

Lemma targets_follow_sorted_order_witness :
  let d := example_mixed in
  let fs := at_photos d in
  folder_at fs "/photos" = Some d
  /\ exists files os,
       StronglySorted path_lt files
       /\ (forall n, n ∈ files
                     <-> (exists x, d !! n = Some (EFile x))
                         /\ lower (suffix n) ∈ IMAGE_EXTENSIONS)
       /\ result (rename_images listing_order no_fault "/photos" 100 false fs)
          = inr os
       /\ planned os
          = imap (fun k f => (f, pad4 (100 + Z.of_nat k) +:+ lower (suffix f))) files.
Proof.
  cbv zeta. split; [reflexivity|].
  exact (proj1 (targets_follow_sorted_order listing_order no_fault
                  listing_order_complete "/photos" 100 false
                  (at_photos example_mixed) example_mixed eq_refl)).
Defined.

Lemma collision_is_skipped_witness :
  let fs := at_photos example_clash in
  let after := rename_loop no_fault "/photos" false ([] ++ [(1%Z, "0.jpg")]) 0 fs in
  final after = fs
  /\ result after = inr ([] ++ [Collision "0.jpg" "0001.jpg"], 0%nat).
Proof.
  cbv zeta.
  destruct (collision_is_skipped no_fault "/photos" false [] 1 "0.jpg" 0
              (at_photos example_clash) example_clash)
    as (Hfinal & _ & os & c' & Hbefore & Hafter).
  - reflexivity.
  - intros H. vm_compute in H. discriminate H.
  - exists (EFile 2). vm_compute. reflexivity.
  - split; [exact Hfinal|].
    injection Hbefore as <- <-. exact Hafter.
Defined.

Lemma second_run_is_noop_witness :
  let fs := at_photos example_two in
  let first := rename_images listing_order no_fault "/photos" 1 false fs in
  let second := rename_images listing_order no_fault "/photos" 1 false (final first) in
  let first' := rename_images_in_folder listing_order no_fault "/photos" fs in
  let second' := rename_images_in_folder listing_order no_fault "/photos" (final first') in
  (result first = inr [Renamed "a.jpg" "0001.jpg"; Renamed "b.PNG" "0002.png"]
   /\ final second = final first
   /\ List.filter is_rename_call (trace second) = [])
  /\ (result first' = inr [Renamed "a.jpg" "0001.jpg"; Renamed "b.PNG" "0002.png"]
      /\ final second' = final first'
      /\ List.filter is_rename_call (trace second') = []).
Proof.
  cbv zeta.
  destruct (second_run_is_noop listing_order no_fault listing_order_complete
              "/photos" 1
              (at_photos example_two) example_two eq_refl)
    as [Hfull Hsimple].
  split.
  - assert (Hres : result (rename_images listing_order no_fault "/photos" 1 false
                     (at_photos example_two))
                   = inr [Renamed "a.jpg" "0001.jpg"; Renamed "b.PNG" "0002.png"])
      by (vm_compute; reflexivity).
    split; [exact Hres|].
    destruct (Hfull _ Hres) as (H1 & H2 & _).
    + repeat constructor; right; reflexivity.
    + lia.
    + cbn [length]. lia.
    + split; [exact H1|exact H2].
  - assert (Hres : result (rename_images_in_folder listing_order no_fault "/photos"
                     (at_photos example_two))
                   = inr [Renamed "a.jpg" "0001.jpg"; Renamed "b.PNG" "0002.png"])
      by (vm_compute; reflexivity).
    split; [exact Hres|].
    destruct (Hsimple _ example_two_renamed Hres)
      as (H1 & H2 & _).
    + repeat constructor; right; reflexivity.
    + vm_compute. reflexivity.
    + vm_compute. reflexivity.
    + cbn [length]. lia.
    + split; [exact H1|exact H2].
Defined.

Lemma rename_failure_is_isolated_witness :
  let fs := at_photos example_five in
  let its := [(1%Z, "a.jpg")] ++ (2%Z, "b.jpg")
             :: [(3%Z, "c.jpg"); (4%Z, "d.jpg"); (5%Z, "e.jpg")] in
  (exists os1 os2 c,
     result (rename_loop (fault_on "b.jpg") "/photos" false its 0 fs)
     = inr (os1 ++ Failed "b.jpg" "0002.jpg" :: os2, c)
     /\ length os1 = 1%nat /\ length os2 = 3%nat)
  /\ (exists os1 os2,
        result (simple_loop (fault_on "b.jpg") "/photos" its fs)
        = inr (os1 ++ Failed "b.jpg" "0002.jpg" :: os2)
        /\ length os1 = 1%nat /\ length os2 = 3%nat).
Proof.
  cbv zeta.
  destruct (rename_failure_is_isolated listing_order (fault_on "b.jpg") "/photos"
              [(1%Z, "a.jpg")] [(3%Z, "c.jpg"); (4%Z, "d.jpg"); (5%Z, "e.jpg")]
              2 "b.jpg" 0
              (at_photos example_five))
    as (Hfull & Hsimple & _).
  split.
  - destruct Hfull as (os1 & c1 & os2 & _ & _ & Hl1 & Hl2 & Hwhole & _).
    + intros H. vm_compute in H. discriminate H.
    + vm_compute. reflexivity.
    + vm_compute. reflexivity.
    + exists os1, os2, (0 + count_renamed (os1 ++ os2))%nat.
      split; [exact Hwhole|]. split; [exact Hl1|exact Hl2].
  - destruct Hsimple as (os1 & os2 & _ & _ & Hl1 & Hl2 & Hwhole & _).
    + intros H. vm_compute in H. discriminate H.
    + vm_compute. reflexivity.
    + exists os1, os2. split; [exact Hwhole|]. split; [exact Hl1|exact Hl2].
Defined.

Lemma bad_folder_stops_before_renaming_witness :
  (∅ : filesystem) !! "/nowhere" = None
  /\ rename_images listing_order no_fault "/nowhere" 1 false ∅
     = Ran (inr []) ∅
           [Call (SysResolve "/nowhere"); Call (SysExists "/nowhere");
            Print (MsgError FileNotFoundError "/nowhere")]
  /\ rename_images_in_folder listing_order no_fault "/file.txt" {[ "/file.txt" := NotDir ]}
     = Ran (inl NotADirectoryError) {[ "/file.txt" := NotDir ]}
           [Call (SysExists "/file.txt"); Call (SysIterdir "/file.txt")].
Proof.
  split; [reflexivity|]. split.
  - exact (proj1 (bad_folder_stops_before_renaming listing_order no_fault
                    "/nowhere" 1 false ∅ (or_introl eq_refl))).
  - exact (proj2 (bad_folder_stops_before_renaming listing_order no_fault
                    "/file.txt" 1 false {[ "/file.txt" := NotDir ]}
                    (or_intror eq_refl))).
Defined.


Lemma listing_order_is_irrelevant_witness :
  let fs := at_photos example_mixed in
  result (rename_images listing_order no_fault "/photos" 1 false fs)
  = result (rename_images reversed_order no_fault "/photos" 1 false fs)
  /\ final (rename_images_in_folder listing_order no_fault "/photos" fs)
     = final (rename_images_in_folder reversed_order no_fault "/photos" fs).
Proof.
  cbv zeta.
  destruct (listing_order_is_irrelevant listing_order reversed_order no_fault
              "/photos" 1 false
              (at_photos example_mixed) reversed_order_permutation)
    as [(H1 & _) (_ & H2 & _)].
  split; [exact H1|exact H2].
Defined.

Lemma upper_case_suffix_is_normalised_witness :
  let fs := at_photos example_upper in
  new_name 1 "0001.JPG" = "0001.jpg"
  /\ result (rename_body no_fault "/photos" false (1%Z, "0001.JPG") 0 fs)
     = inr (Renamed "0001.JPG" "0001.jpg", 1%nat)
  /\ result (simple_body no_fault "/photos" (1%Z, "0001.JPG") fs)
     = inr (Renamed "0001.JPG" "0001.jpg").
Proof.
  cbv zeta.
  destruct (upper_case_suffix_is_normalised no_fault "/photos" 1 ".JPG" 0
              (at_photos example_upper) example_upper example_lower)
    as (Hnew & _ & _ & _ & Hrun).
  - vm_compute. reflexivity.
  - intros H. vm_compute in H. discriminate H.
  - split; [exact Hnew|].
    destruct (Hrun eq_refl) as (_ & Hfull & Hsimple).
    split.
    + refine (f_equal result (Hfull _ _)); vm_compute; reflexivity.
    + refine (f_equal result (Hsimple _)); vm_compute; reflexivity.
Defined.

(** ** The further theorems at concrete inputs *)

Lemma other_entries_are_kept_witness :
  let fs := at_photos example_subdir in
  (exists d', folder_at (final (rename_images listing_order no_fault "/photos" 1 false fs))
                "/photos" = Some d'
              /\ d' !! "0001.jpg" = Some EDir)
  /\ (exists d', folder_at (final (rename_images_in_folder listing_order no_fault
                                     "/photos" fs)) "/photos" = Some d'
                 /\ d' !! "0001.jpg" = Some EDir).
Proof.
  cbv zeta.
  destruct (other_entries_are_kept listing_order no_fault "/photos" 1 false
              (at_photos example_subdir) example_subdir "0001.jpg" EDir)
    as [Hfull Hsimple].
  - reflexivity.
  - vm_compute. reflexivity.
  - split.
    + apply Hfull. vm_compute. reflexivity.
    + apply Hsimple. vm_compute. reflexivity.
Defined.

Lemma full_variant_keeps_every_entry_witness :
  let fs := at_photos example_clash in
  exists d', folder_at (final (rename_images listing_order no_fault "/photos" 1 false fs))
               "/photos" = Some d'
             /\ (map_to_list d').*2 ≡ₚ (map_to_list example_clash).*2
             /\ size d' = size example_clash.
Proof.
  exact (full_variant_keeps_every_entry listing_order no_fault "/photos" 1 false
           (at_photos example_clash) example_clash eq_refl).
Defined.

Lemma example_none_has_no_image (exts : list string) (n : string) :
  ".txt" ∉ exts -> eligible exts example_none n = false.
Proof.
  intros Htxt.
  unfold eligible. destruct (example_none !! n) as [e|] eqn:H; [|reflexivity].
  apply elem_of_map_to_list in H.
  let l := eval vm_compute in (map_to_list example_none) in
  change (map_to_list example_none) with l in H.
  apply elem_of_cons in H as [[= -> ->]|H]; [reflexivity|].
  apply elem_of_cons in H as [[= -> ->]|H].
  { cbn [is_file_entry andb]. unfold has_extension.
    by apply bool_decide_eq_false. }
  by apply elem_of_nil in H.
Qed.

Lemma no_image_files_no_work_witness :
  let fs := at_photos example_none in
  (let r := rename_images listing_order no_fault "/photos" 1 false fs in
   result r = inr [] /\ final r = fs /\ printed (trace r) = [MsgNoImages "/photos"]
   /\ List.filter is_rename_call (trace r) = [])
  /\ (let r := rename_images_in_folder listing_order no_fault "/photos" fs in
      result r = inr [] /\ final r = fs /\ printed (trace r) = [MsgNoImages "/photos"]
      /\ List.filter is_rename_call (trace r) = []).
Proof.
  cbv zeta.
  destruct (no_image_files_no_work listing_order no_fault "/photos" 1 false
              (at_photos example_none) example_none eq_refl) as [Hfull Hsimple].
  split.
  - apply Hfull. intros n. apply example_none_has_no_image.
    apply (bool_decide_eq_false_1 _). vm_compute. reflexivity.
  - apply Hsimple. intros n. apply example_none_has_no_image.
    apply (bool_decide_eq_false_1 _). vm_compute. reflexivity.
Defined.

Lemma target_names_are_unique_witness :
  NoDup (map o_target [Renamed "a.jpg" "0001.jpg"; Renamed "b.PNG" "0002.png"]).
Proof.
  apply (proj1 (proj2 (target_names_are_unique listing_order no_fault "/photos" 1
                         false (at_photos example_two)))).
  vm_compute. reflexivity.
Defined.

Lemma extension_is_kept_in_lower_case_witness :
  suffix (new_name 7 "IMG_0042.JPEG") = lower (suffix "IMG_0042.JPEG")
  /\ has_extension IMAGE_EXTENSIONS (new_name 7 "IMG_0042.JPEG") = true
  /\ new_name 7 (new_name 7 "IMG_0042.JPEG") = new_name 7 "IMG_0042.JPEG".
Proof.
  apply (proj1 (extension_is_kept_in_lower_case 7 "IMG_0042.JPEG")).
  vm_compute. reflexivity.
Defined.


Lemma dry_run_previews_the_snapshot_witness :
  Forall (fun o =>
            o = if decide (o_source o = o_target o)
                then AlreadyNamed (o_source o)
                else if decide (is_Some (example_clash !! o_target o))
                     then Collision (o_source o) (o_target o)
                     else WouldRename (o_source o) (o_target o))
         [Collision "0.jpg" "0001.jpg"; WouldRename "0001.jpg" "0002.jpg"].
Proof.
  apply (dry_run_previews_the_snapshot listing_order no_fault "/photos" 1
           (at_photos example_clash) example_clash).
  - reflexivity.
  - vm_compute. reflexivity.
Defined.

Lemma example_two_renamed_images (exts : list string) (n : string) :
  ".jpg" ∈ exts -> ".png" ∈ exts ->
  n ∈ ["0001.jpg"; "0002.png"] <-> eligible exts example_two_renamed n = true.
Proof.
  intros Hjpg Hpng. split.
  - intros H. apply elem_of_cons in H as [->|H].
    { apply eligible_spec. split; [by exists 2%nat|exact Hjpg]. }
    apply elem_of_cons in H as [->|H].
    { apply eligible_spec. split; [by exists 1%nat|exact Hpng]. }
    by apply elem_of_nil in H.
  - intros H. apply eligible_spec in H as [[x H] _].
    apply elem_of_map_to_list in H.
    let l := eval vm_compute in (map_to_list example_two_renamed) in
    change (map_to_list example_two_renamed) with l in H.
    rewrite !elem_of_cons in H. rewrite !elem_of_cons.
    destruct H as [[= -> _]|[[= -> _]|H]]; [auto|auto|].
    by apply elem_of_nil in H.
Qed.

Lemma folder_in_sequence_is_left_alone_witness :
  let fs := at_photos example_two_renamed in
  let files := ["0001.jpg"; "0002.png"] in
  (let r := rename_images listing_order no_fault "/photos" 1 false fs in
   result r = inr (map AlreadyNamed files) /\ final r = fs
   /\ List.filter is_rename_call (trace r) = [])
  /\ (let r := rename_images_in_folder listing_order no_fault "/photos" fs in
      result r = inr (map AlreadyNamed files) /\ final r = fs
      /\ List.filter is_rename_call (trace r) = []).
Proof.
  cbv zeta.
  assert (Hsorted : StronglySorted path_lt ["0001.jpg"; "0002.png"]).
  { repeat constructor. }
  assert (Hnamed : forall k f, ["0001.jpg"; "0002.png"] !! k = Some f ->
                               f = new_name (1 + Z.of_nat k) f).
  { intros [|[|k]] f; [intros [= <-]; reflexivity|intros [= <-]; reflexivity|].
    intros H. discriminate H. }
  destruct (folder_in_sequence_is_left_alone listing_order no_fault
              listing_order_complete "/photos" 1 (at_photos example_two_renamed)
              example_two_renamed eq_refl) as [Hfull Hsimple].
  split.
  - apply Hfull; [exact Hsorted| |exact Hnamed].
    intros n. apply example_two_renamed_images;
      apply (bool_decide_unpack _); vm_compute; exact I.
  - apply Hsimple; [exact Hsorted| |exact Hnamed].
    intros n. apply example_two_renamed_images;
      apply (bool_decide_unpack _); vm_compute; exact I.
Defined.

Lemma full_variant_places_every_file_witness :
  let fs := at_photos example_clash in
  exists d',
    folder_at (final (rename_images listing_order no_fault "/photos" 1 false fs))
      "/photos" = Some d'
    /\ (forall o, o ∈ [Collision "0.jpg" "0001.jpg"; Renamed "0001.jpg" "0002.jpg"] ->
                  is_file_entry (example_clash !! o_source o) = true
                  /\ d' !! name_after o = example_clash !! o_source o).
Proof.
  cbv zeta.
  destruct (full_variant_places_every_file listing_order no_fault
              listing_order_complete "/photos" 1 false (at_photos example_clash)
              example_clash
              [Collision "0.jpg" "0001.jpg"; Renamed "0001.jpg" "0002.jpg"])
    as (d' & Hd' & Hplaces & _).
  - reflexivity.
  - vm_compute. reflexivity.
  - exists d'. split; [exact Hd'|exact Hplaces].
Defined.

Lemma dry_run_total_counts_not_named_witness :
  let fs := at_photos example_clash in
  last (printed (trace (rename_images listing_order no_fault "/photos" 1 true fs)))
  = Some (MsgWouldRenameTotal
            (length (List.filter (fun o => negb (is_already_named o))
                       [Collision "0.jpg" "0001.jpg";
                        WouldRename "0001.jpg" "0002.jpg"]))).
Proof.
  cbv zeta.
  apply (dry_run_total_counts_not_named listing_order no_fault listing_order_complete
           "/photos" 1 (at_photos example_clash) example_clash).
  - reflexivity.
  - vm_compute. reflexivity.
  - discriminate.
Defined.

Lemma simple_variant_creates_nothing_witness :
  let fs := at_photos example_clash in
  exists d', folder_at (final (rename_images_in_folder listing_order no_fault
                                 "/photos" fs)) "/photos" = Some d'
             /\ (map_to_list d').*2 ⊆+ (map_to_list example_clash).*2
             /\ size d' <= size example_clash.
Proof.
  exact (simple_variant_creates_nothing listing_order no_fault "/photos"
           (at_photos example_clash) example_clash eq_refl).
Defined.
